(** * RoExport: the script extraction engine of [roexport/parser.py]

    A shallow embedding of [RobloxScript] and [RobloxFileParser] together
    with the parts of the Python standard library they call
    ([xml.etree.ElementTree] elements and [findall], [str] methods,
    [posixpath.join]), and the properties of the extraction engine.

    Text is modelled as [string]: a sequence of characters with code points
    U+0000..U+00FF, classified the way Python's [str] methods classify
    them. Paths are joined with the POSIX separator. *)

From stdpp Require Import gmap strings list fin_maps.
From Stdlib Require Import Ascii String NArith Lia.

Local Open Scope string_scope.

(** ** Python [str] *)

Module PyStr.

Definition code (c : ascii) : N := N_of_ascii c.

Definition between (lo hi : N) (c : ascii) : bool :=
  ((lo <=? code c) && (code c <=? hi))%N.

(** [c.isalnum()] for the code points below U+0100. *)
Definition isalnum (c : ascii) : bool :=
  between 48 57 c || between 65 90 c || between 97 122 c
  || (code c =? 170)%N || between 178 179 c || (code c =? 181)%N
  || between 185 186 c || between 188 190 c
  || between 192 214 c || between 216 246 c || between 248 255 c.

(** [c.isspace()] for the code points below U+0100. *)
Definition isspace (c : ascii) : bool :=
  between 9 13 c || between 28 32 c
  || (code c =? 133)%N || (code c =? 160)%N.

(** [c.lower()] for the code points below U+0100. *)
Definition lower_char (c : ascii) : ascii :=
  if between 65 90 c || between 192 214 c || between 216 222 c
  then ascii_of_N (code c + 32) else c.

Fixpoint lower (s : string) : string :=
  match s with
  | EmptyString => EmptyString
  | String c s' => String (lower_char c) (lower s')
  end.

(** [s.lstrip()] *)
Fixpoint lstrip (s : string) : string :=
  match s with
  | EmptyString => EmptyString
  | String c s' => if isspace c then lstrip s' else s
  end.

(** [s.rstrip()] *)
Fixpoint rstrip (s : string) : string :=
  match s with
  | EmptyString => EmptyString
  | String c s' =>
      match rstrip s' with
      | EmptyString => if isspace c then EmptyString else String c EmptyString
      | r => String c r
      end
  end.

(** [s.strip()] *)
Definition strip (s : string) : string := lstrip (rstrip s).

(** ["".join(c for c in s if keep(c))] *)
Fixpoint filter_chars (keep : ascii -> bool) (s : string) : string :=
  match s with
  | EmptyString => EmptyString
  | String c s' =>
      if keep c then String c (filter_chars keep s') else filter_chars keep s'
  end.

(** Truthiness of a [str]: [bool(s)]. *)
Definition truthy (s : string) : bool :=
  match s with EmptyString => false | String _ _ => true end.

(** [s.startswith(p)] *)
Definition startswith (p s : string) : bool := String.prefix p s.

Fixpoint rev_string (s : string) : string :=
  match s with
  | EmptyString => EmptyString
  | String c s' => rev_string s' ++ String c EmptyString
  end.

(** [s.endswith(p)] *)
Definition endswith (p s : string) : bool :=
  String.prefix (rev_string p) (rev_string s).

(** [o or ""] for an optional text. *)
Definition or_empty (o : option string) : string :=
  match o with Some s => s | None => "" end.

(** A text with at least one character that is not whitespace. *)
Fixpoint has_non_space (s : string) : bool :=
  match s with
  | EmptyString => false
  | String c s' => negb (isspace c) || has_non_space s'
  end.

End PyStr.

(** ** [posixpath.join] with two components *)

Module PosixPath.

Definition sep : string := "/".

Definition join (a b : string) : string :=
  if PyStr.startswith sep b then b
  else if negb (PyStr.truthy a) || PyStr.endswith sep a then a ++ b
  else a ++ sep ++ b.

End PosixPath.

(** ** [xml.etree.ElementTree.Element] *)

#[warnings="-register-all"]
Inductive Element : Type :=
  mkElement (tag : string) (attrib : gmap string string)
            (text : option string) (children : list Element).

Definition tag (e : Element) : string :=
  match e with mkElement t _ _ _ => t end.
Definition attrib (e : Element) : gmap string string :=
  match e with mkElement _ a _ _ => a end.
Definition text (e : Element) : option string :=
  match e with mkElement _ _ x _ => x end.
Definition children (e : Element) : list Element :=
  match e with mkElement _ _ _ cs => cs end.

(** [element.get(key)] *)
Definition get (e : Element) (key : string) : option string :=
  attrib e !! key.

(** [element.get(key, default)] *)
Definition get_default (e : Element) (key default : string) : string :=
  match get e key with Some v => v | None => default end.

(** [element.iter()]: the element and its descendants in document order. *)
Fixpoint iter (e : Element) : list Element :=
  match e with
  | mkElement _ _ _ cs => e :: flat_map iter cs
  end.

(** The strict descendants of an element in document order. *)
Definition descendants (e : Element) : list Element :=
  flat_map iter (children e).

(** [element.findall('.//' + name)] *)
Definition findall_descendant (name : string) (e : Element) : list Element :=
  List.filter (fun d => String.eqb (tag d) name) (descendants e).

(** [element.findall('.//' + name + '[@' + key + '="' + value + '"]')] *)
Definition findall_descendant_attr
    (name key value : string) (e : Element) : list Element :=
  List.filter (fun d => bool_decide (get d key = Some value))
              (findall_descendant name e).

(** ** [RobloxScript] *)

Record RobloxScript : Type := mkRobloxScript {
  name : string;
  source : string;
  script_type : string;
  parent_path : string
}.

(** [c.isalnum() or c in (' ', '-', '_')] *)
Definition keep_char (c : ascii) : bool :=
  PyStr.isalnum c
  || Ascii.eqb c " "%char || Ascii.eqb c "-"%char || Ascii.eqb c "_"%char.

(** The cleaned name computed in the first lines of [get_filename]. *)
Definition clean_name (s : RobloxScript) : string :=
  let cleaned := PyStr.rstrip (PyStr.filter_chars keep_char (name s)) in
  if negb (PyStr.truthy cleaned) then "script" else cleaned.

Definition get_filename (s : RobloxScript) : string :=
  if String.eqb (script_type s) "ModuleScript" then clean_name s ++ ".lua"
  else if String.eqb (script_type s) "LocalScript"
       then clean_name s ++ ".client.lua"
       else clean_name s ++ ".server.lua".

Definition get_full_path (s : RobloxScript) : string :=
  if PyStr.truthy (parent_path s)
  then PosixPath.join (parent_path s) (get_filename s)
  else get_filename s.

(** ** [RobloxFileParser] *)

(** [class_name in ['Script', 'LocalScript', 'ModuleScript']] *)
Definition is_script_class (class_name : string) : bool :=
  String.eqb class_name "Script" || String.eqb class_name "LocalScript"
  || String.eqb class_name "ModuleScript".

(** The inner loop of both property scans: the first child of a
    [Properties] grouping whose [name] attribute is [key]. *)
Fixpoint first_named (key : string) (cs : list Element) : option Element :=
  match cs with
  | [] => None
  | child :: cs' =>
      if bool_decide (get child "name" = Some key) then Some child
      else first_named key cs'
  end.

(** Lines 132-135: the scan returns at the first grouping with a match. *)
Fixpoint name_in_properties (props : list Element) : option string :=
  match props with
  | [] => None
  | prop :: props' =>
      match first_named "Name" (children prop) with
      | Some child => Some (PyStr.or_empty (text child))
      | None => name_in_properties props'
      end
  end.

(** Lines 138-139: the loop returns in its first iteration. *)
Definition name_in_strings (elems : list Element) : option string :=
  match elems with
  | [] => None
  | string_elem :: _ => Some (PyStr.or_empty (text string_elem))
  end.

Definition _get_element_name (element : Element) : string :=
  match name_in_properties (findall_descendant "Properties" element) with
  | Some n => n
  | None =>
      match name_in_strings
              (findall_descendant_attr "string" "name" "Name" element) with
      | Some n => n
      | None => get_default element "referent" (get_default element "class" "")
      end
  end.

(** Lines 110-115: [source] is assigned at every grouping with a match;
    the [break] leaves the inner loop only. *)
Fixpoint source_in_properties (props : list Element) (source : string)
    : string :=
  match props with
  | [] => source
  | prop :: props' =>
      match first_named "Source" (children prop) with
      | Some child => source_in_properties props' (PyStr.or_empty (text child))
      | None => source_in_properties props' source
      end
  end.

(** Lines 119-121: the loop assigns once and breaks. *)
Definition source_in_strings (elems : list Element) (source : string)
    : string :=
  match elems with
  | [] => source
  | string_elem :: _ => PyStr.or_empty (text string_elem)
  end.

(** Lines 109-121 of [_extract_script]: the looked-up Source text. *)
Definition find_source (element : Element) : string :=
  let source :=
    source_in_properties (findall_descendant "Properties" element) "" in
  if negb (PyStr.truthy source)
  then source_in_strings
         (findall_descendant_attr "string" "name" "Source" element) source
  else source.

Definition _extract_script
    (element : Element) (script_type parent_path : string)
    : option RobloxScript :=
  let name := _get_element_name element in
  let name :=
    if negb (PyStr.truthy name) then "unnamed_" ++ PyStr.lower script_type
    else name in
  let source := find_source element in
  if PyStr.truthy (PyStr.strip source)
  then Some (mkRobloxScript name source script_type parent_path)
  else None.

(** Lines 91-96 of [_parse_element]: the path handed to the children. *)
Definition current_path (element : Element) (parent_path : string) : string :=
  let class_name := get_default element "class" "" in
  let name := _get_element_name element in
  if PyStr.truthy name && negb (is_script_class class_name)
  then if PyStr.truthy parent_path
       then PosixPath.join parent_path name else name
  else parent_path.

(** Lines 85-89 of [_parse_element]: [self.scripts] after the element's own
    record, if any, is appended. *)
Definition append_own
    (element : Element) (parent_path : string) (scripts : list RobloxScript)
    : list RobloxScript :=
  let class_name := get_default element "class" "" in
  if is_script_class class_name
  then match _extract_script element class_name parent_path with
       | Some script => scripts ++ [script]
       | None => scripts
       end
  else scripts.

(** [_parse_element], threading the contents of [self.scripts]. *)
Fixpoint _parse_element
    (element : Element) (parent_path : string) (scripts : list RobloxScript)
    : list RobloxScript :=
  match element with
  | mkElement _ _ _ cs =>
      fold_left
        (fun scripts child =>
           _parse_element child (current_path element parent_path) scripts)
        cs
        (append_own element parent_path scripts)
  end.

(** [get_scripts_by_type] on the contents of [self.scripts]. *)
Definition get_scripts_by_type
    (scripts : list RobloxScript) (ty : string) : list RobloxScript :=
  List.filter (fun script => String.eqb (script_type script) ty) scripts.

(** One iteration of the loop of [get_script_count]. *)
Definition count_script
    (counts : gmap string nat) (script : RobloxScript) : gmap string nat :=
  match counts !! script_type script with
  | Some n => <[script_type script := n + 1]> counts
  | None => counts
  end.

Definition initial_counts : gmap string nat :=
  <["Script" := 0]> (<["LocalScript" := 0]> (<["ModuleScript" := 0]> ∅)).

(** [get_script_count] on the contents of [self.scripts]. *)
Definition get_script_count (scripts : list RobloxScript) : gmap string nat :=
  fold_left count_script scripts initial_counts.

(** ** [parse_file] and the list objects it hands out

    [self.scripts] is a reference to a list object; [parse_file] returns
    that reference. The store maps references to the contents of the list
    objects allocated so far. *)

Definition ref := nat.

Record Store : Type := mkStore {
  lists : gmap ref (list RobloxScript)
}.

Record RobloxFileParser : Type := mkParser {
  scripts : ref
}.

(** What [ET.parse] makes of an existing file. *)
Inductive Decoded : Type :=
| Unreadable
| Malformed
| Parsed (root : Element).

(** The files there are: [None] where [os.path.exists] is false. *)
Definition FileSystem := string -> option Decoded.

Inductive Outcome (A : Type) : Type :=
| Return (a : A)
| FileNotFoundError
| ValueError
| RuntimeError.
Arguments Return {A} a.
Arguments FileNotFoundError {A}.
Arguments ValueError {A}.
Arguments RuntimeError {A}.

(** A fresh list object [[]]. *)
Definition alloc (st : Store) : Store * ref :=
  let l := fresh (dom (lists st)) in
  (mkStore (<[l := []]> (lists st)), l).

(** The contents of a list object. *)
Definition contents (st : Store) (l : ref) : list RobloxScript :=
  default [] (lists st !! l).

(** [RobloxFileParser()] *)
Definition new_parser (st : Store) : Store * RobloxFileParser :=
  let '(st', l) := alloc st in (st', mkParser l).

(** The walk started by [parse_file], appending in place to the list object
    [self.scripts] refers to. *)
Definition walk_into (l : ref) (root : Element) (st : Store) : Store :=
  mkStore (<[l := _parse_element root "" (contents st l)]> (lists st)).

(** [file_path.lower().endswith(('.rbxm', '.rbxl'))] *)
Definition has_roblox_extension (file_path : string) : bool :=
  PyStr.endswith ".rbxm" (PyStr.lower file_path)
  || PyStr.endswith ".rbxl" (PyStr.lower file_path).

(** [parse_file]. The walk of a decoded tree always completes here: the
    interpreter's recursion limit, which turns the walk of a very deep
    tree into a RuntimeError after [self.scripts] was rebound, is not
    modelled. *)
Definition parse_file
    (fs : FileSystem) (file_path : string)
    (st : Store) (self : RobloxFileParser)
    : Store * RobloxFileParser * Outcome ref :=
  match fs file_path with
  | None => (st, self, FileNotFoundError)
  | Some decoded =>
      if negb (has_roblox_extension file_path) then (st, self, ValueError)
      else match decoded with
           | Malformed => (st, self, ValueError)
           | Unreadable => (st, self, RuntimeError)
           | Parsed root =>
               let '(st1, l) := alloc st in
               let self1 := mkParser l in
               let st2 := walk_into (scripts self1) root st1 in
               (st2, self1, Return (scripts self1))
           end
  end.

(** The record sequence of a decoded tree: the walk of [parse_file] from an
    empty [self.scripts]. *)
Definition walk (root : Element) : list RobloxScript :=
  _parse_element root "" [].

(** ** Document order and ancestor chains *)

(** The own record of an element visited with [parent_path], as a list. *)
Definition own_record (element : Element) (parent_path : string)
    : list RobloxScript :=
  append_own element parent_path [].

(** The elements the walk visits, each with the path it is visited with. *)
Fixpoint visits (element : Element) (parent_path : string)
    : list (Element * string) :=
  match element with
  | mkElement _ _ _ cs =>
      (element, parent_path)
        :: flat_map (fun child => visits child (current_path element parent_path))
                    cs
  end.

(** [Visit root p0 ancestors e p]: the walk started at [root] with path [p0]
    visits [e] with path [p], below the chain [ancestors] (root first). *)
Inductive Visit (root : Element) (p0 : string)
    : list Element -> Element -> string -> Prop :=
| Visit_root : Visit root p0 [] root p0
| Visit_child ancestors e p child :
    Visit root p0 ancestors e p ->
    In child (children e) ->
    Visit root p0 (ancestors ++ [e]) child (current_path e p).

Definition class_of (e : Element) : string := get_default e "class" "".

(** The elements that add a segment to the path of their children. *)
Definition contributes (e : Element) : bool :=
  PyStr.truthy (_get_element_name e) && negb (is_script_class (class_of e)).

(** The path after joining the names in [names] to [p], left to right. *)
Definition join_all (p : string) (names : list string) : string :=
  fold_left
    (fun p n => if PyStr.truthy p then PosixPath.join p n else n) names p.



(** ** Example trees *)

Module Examples.

Definition attrs (l : list (string * string)) : gmap string string :=
  list_to_map l.

Definition leaf (ty key : string) (value : option string) : Element :=
  mkElement ty (attrs [("name", key)]) value [].

Definition properties (entries : list Element) : Element :=
  mkElement "Properties" ∅ None entries.

Definition item (class : string) (cs : list Element) : Element :=
  mkElement "Item" (attrs [("class", class)]) None cs.

Definition main_script : Element :=
  item "Script"
    [properties [leaf "string" "Name" (Some "Main");
                 leaf "ProtectedString" "Source" (Some "print('hi')")]].

Definition workspace_folder : Element :=
  item "Folder"
    [properties [leaf "string" "Name" (Some "Workspace")]; main_script].

(** The root carries its kind label only. *)
Definition data_model : Element :=
  mkElement "roblox" (attrs [("class", "DataModel")]) None [workspace_folder].


(** A Source entry without text in the grouping, and a string leaf
    named Source beside the grouping. *)
Definition absent_source_script : Element :=
  item "Script"
    [properties [leaf "string" "Name" (Some "Main");
                 leaf "ProtectedString" "Source" None];
     leaf "string" "Source" (Some "print(1)")].

(** Two groupings with a Source entry each. *)
Definition two_sources_script : Element :=
  item "Script"
    [properties [leaf "string" "Name" (Some "Main");
                 leaf "ProtectedString" "Source" (Some "first")];
     item "Configuration"
       [properties [leaf "string" "Name" (Some "Inner");
                    leaf "string" "Source" (Some "second")]]].



(** A module whose Name entry has no text. *)
Definition unnamed_module : Element :=
  item "ModuleScript"
    [properties [leaf "string" "Name" None;
                 leaf "ProtectedString" "Source" (Some "return {}")]].

(** A local script whose source is three spaces, a line feed and two
    spaces. *)
Definition blank_local : Element :=
  item "LocalScript"
    [properties [leaf "string" "Name" (Some "Blank");
                 leaf "ProtectedString" "Source"
                   (Some ("   " ++ String (ascii_of_nat 10) "  "))]].


End Examples.

(** Records and a file system over the example trees. *)

Module Instances.

Import Examples.

Definition util_record : RobloxScript :=
  mkRobloxScript "Util" "return {}" "ModuleScript" "Main".

Definition main_record : RobloxScript :=
  mkRobloxScript "Main" "print('hi')" "Script" "Workspace/Workspace".

(** One file, holding the tree of the worked example. *)
Definition one_file : FileSystem :=
  fun file_path =>
    if String.eqb file_path "model.rbxm" then Some (Parsed data_model)
    else None.

End Instances.

(** ** Insertion-ordered [dict] with string keys *)

Module PyDict.

(** [d.get(k)] *)
Fixpoint lookup {V : Type} (k : string) (d : list (string * V)) : option V :=
  match d with
  | nil => None
  | (k', v) :: d' => if String.eqb k' k then Some v else lookup k d'
  end.

(** [k in d] *)
Definition mem {V : Type} (k : string) (d : list (string * V)) : bool :=
  match lookup k d with Some _ => true | None => false end.

(** [d[k] = v]: an existing key keeps its position, a new key goes last. *)
Fixpoint set {V : Type} (k : string) (v : V) (d : list (string * V))
    : list (string * V) :=
  match d with
  | nil => (k, v) :: nil
  | (k', v') :: d' =>
      if String.eqb k' k then (k', v) :: d' else (k', v') :: set k v d'
  end.

End PyDict.

(** ** [RobloxExporter] *)

Record RobloxExporter : Type := mkExporter {
  preserve_hierarchy : bool;
  add_headers : bool;
  parser : RobloxFileParser
}.

(** [s * n] *)
Fixpoint repeat_string (s : string) (n : nat) : string :=
  match n with
  | O => ""
  | S n' => s ++ repeat_string s n'
  end.

Definition newline : string := String "010"%char "".

(** The list [header_lines] built by [_generate_header]. *)
Definition header_lines (script : RobloxScript) : list string :=
  List.app
    (("-- " ++ repeat_string "=" 50)
       :: ("-- Script Name: " ++ name script)
       :: ("-- Script Type: " ++ script_type script)
       :: nil)
    (List.app
       (if PyStr.truthy (parent_path script)
        then ("-- Parent Path: " ++ parent_path script) :: nil
        else nil)
       ("-- Exported by RoExport"
          :: ("-- " ++ repeat_string "=" 50)
          :: ""
          :: nil)).

Definition _generate_header (script : RobloxScript) : string :=
  String.concat newline (header_lines script).

Definition _prepare_content (self : RobloxExporter) (script : RobloxScript)
    : string :=
  let content_parts :=
    if add_headers self then _generate_header script :: nil else nil in
  let content_parts := List.app content_parts (source script :: nil) in
  String.concat newline content_parts.

(** Lines 86-97 of [_export_script]: the path the script is written to. *)
Definition export_file_path
    (self : RobloxExporter) (script : RobloxScript) (output_dir : string)
    : string :=
  if preserve_hierarchy self
  then PosixPath.join output_dir (get_full_path script)
  else PosixPath.join output_dir (get_filename script).

(** Lines 182-184 of [generate_summary]: the dict [counts]. *)
Definition summary_counts (scripts : list RobloxScript)
    : list (string * nat) :=
  fold_left
    (fun counts script =>
       PyDict.set (script_type script)
         (match PyDict.lookup (script_type script) counts with
          | Some n => n
          | None => 0
          end + 1)
         counts)
    scripts nil.

(** Lines 193-197 of [generate_summary]: the dict [by_type]. *)
Definition summary_groups (scripts : list RobloxScript)
    : list (string * list RobloxScript) :=
  fold_left
    (fun by_type script =>
       let by_type :=
         if negb (PyDict.mem (script_type script) by_type)
         then PyDict.set (script_type script) nil by_type
         else by_type in
       match PyDict.lookup (script_type script) by_type with
       | Some type_scripts =>
           PyDict.set (script_type script)
             (List.app type_scripts (script :: nil)) by_type
       | None => by_type
       end)
    scripts nil.

(** Line 202 of [generate_summary]: the path listed for a script. *)
Definition summary_path (self : RobloxExporter) (script : RobloxScript)
    : string :=
  if preserve_hierarchy self then get_full_path script
  else get_filename script.

(** ** [cli.validate_input_file] *)

(** The result and the lines printed. *)
Definition validate_input_file (fs : FileSystem) (file_path : string)
    : bool * list string :=
  match fs file_path with
  | None =>
      (false, ("Error: Input file '" ++ file_path ++ "' not found") :: nil)
  | Some _ =>
      if negb (has_roblox_extension file_path)
      then (false, "Error: Input file must be a .rbxm or .rbxl file" :: nil)
      else (true, nil)
  end.

(** ** [posixpath.basename] and [posixpath.splitext] *)

Module OsPath.

(** [s.rfind(c)] for a character [c]: the last index of [c], if any. *)
Fixpoint rfind (c : ascii) (s : string) : option nat :=
  match s with
  | EmptyString => None
  | String d s' =>
      match rfind c s' with
      | Some i => Some (S i)
      | None => if Ascii.eqb d c then Some 0 else None
      end
  end.

(** [i + 1] for the result [i] of [rfind], which is [-1] when absent. *)
Definition next_index (found : option nat) : nat :=
  match found with Some i => S i | None => 0 end.

(** [s[n:]] *)
Fixpoint drop (n : nat) (s : string) : string :=
  match n, s with
  | O, _ => s
  | S _, EmptyString => EmptyString
  | S n', String _ s' => drop n' s'
  end.

(** [s[:n]] *)
Fixpoint take (n : nat) (s : string) : string :=
  match n, s with
  | O, _ => EmptyString
  | S _, EmptyString => EmptyString
  | S n', String c s' => String c (take n' s')
  end.

Definition basename (p : string) : string :=
  drop (next_index (rfind "/" p)) p.

(** No character of the text differs from the dot. *)
Fixpoint all_dots (s : string) : bool :=
  match s with
  | EmptyString => true
  | String c s' => Ascii.eqb c "." && all_dots s'
  end.

(** [genericpath._splitext(p, '/', None, '.')] *)
Definition splitext (p : string) : string * string :=
  let sepIndex := rfind "/" p in
  match rfind "." p with
  | Some dotIndex =>
      if Nat.leb (next_index sepIndex) dotIndex
      then if all_dots (take (dotIndex - next_index sepIndex)
                             (drop (next_index sepIndex) p))
           then (p, "")
           else (take dotIndex p, drop dotIndex p)
      else (p, "")
  | None => (p, "")
  end.

End OsPath.

(** ** [cli.main]: the output directory *)

(** Lines 93-99 of [main]: [output] is [args.output]. *)
Definition output_directory (input : string) (output : option string)
    : string :=
  let base_name := fst (OsPath.splitext (OsPath.basename input)) in
  match output with
  | Some dir => if PyStr.truthy dir then dir else base_name
  | None => base_name
  end.

(** ** Lines and first occurrences *)

(** [s.split('\n')] *)
Fixpoint split_lines_aux (cur : string) (s : string) : list string :=
  match s with
  | EmptyString => PyStr.rev_string cur :: nil
  | String c s' =>
      if Ascii.eqb c "010"%char
      then PyStr.rev_string cur :: split_lines_aux "" s'
      else split_lines_aux (String c cur) s'
  end.

Definition split_lines (s : string) : list string := split_lines_aux "" s.

(** A text without a line feed. *)
Fixpoint one_line (s : string) : bool :=
  match s with
  | EmptyString => true
  | String c s' => negb (Ascii.eqb c "010"%char) && one_line s'
  end.

(** The distinct members of a list, in the order of their first
    occurrence. *)
Fixpoint first_occurrences (l : list string) : list string :=
  match l with
  | nil => nil
  | x :: l' =>
      x :: List.filter (fun y => negb (String.eqb x y)) (first_occurrences l')
  end.

(** The characters a file name is made of. *)
Definition filename_char (c : ascii) : Prop :=
  keep_char c = true \/ c = "."%char.

(** The elements of script kind in a tree, in document order. *)
Definition script_elements (root : Element) : list Element :=
  List.filter (fun e => is_script_class (class_of e)) (iter root).

(** ** Sample records and exporters *)

Module Samples.

(** A record whose parent path starts with the separator. *)
Definition absolute_record : RobloxScript :=
  mkRobloxScript "Main" "print('hi')" "Script" "/etc".

Definition unnamed_record : RobloxScript :=
  mkRobloxScript "unnamed_modulescript" "return {}" "ModuleScript" "".

(** A grouping whose Name entry is not a string leaf. *)
Definition content_name_grouping : Element :=
  Examples.properties
    [Examples.leaf "bool" "Anchored" (Some "true");
     Examples.leaf "Content" "Name" (Some "X")].

Definition plain_grouping : Element :=
  Examples.properties [Examples.leaf "bool" "Archivable" (Some "true")].

(** A folder with a referent whose own grouping has no Name entry; the
    grouping of the part inside it has one. *)
Definition named_by_descendant : Element :=
  mkElement "Item"
    (Examples.attrs [("class", "Folder"); ("referent", "R")]) None
    [plain_grouping; Examples.item "Part" [content_name_grouping]].

(** A folder with a referent whose own grouping comes first and has a
    Name entry, before a script with its own string Name entry. *)
Definition named_by_own_grouping : Element :=
  mkElement "Item"
    (Examples.attrs [("class", "Folder"); ("referent", "R")]) None
    [content_name_grouping; Examples.main_script].

(** [RobloxExporter()] and [RobloxExporter(preserve_hierarchy=False,
    add_headers=False)] around a parser whose list is object [0]. *)
Definition default_exporter : RobloxExporter :=
  mkExporter true true (mkParser 0).

Definition flat_exporter : RobloxExporter :=
  mkExporter false false (mkParser 0).

End Samples.

(** ** Statements about the walk *)

(** A grouping none of whose children has the [name] attribute [key]. *)
Definition has_no_entry (key : string) (prop : Element) : Prop :=
  Forall (fun child => get child "name" <> Some key) (children prop).

(** A grouping without an entry named [key]. *)
Definition lacks (key : string) (prop : Element) : Prop :=
  first_named key (children prop) = None.

(** The keys of the mapping of [get_script_count]. *)
Definition script_kinds : gset string :=
  {[ "Script"%string; "LocalScript"%string; "ModuleScript"%string ]}.


(** The statement of C1 about a Source entry without text, read by the
    letter: a script-kind element with a grouping whose Source entry has no
    text has the empty text as its looked-up source. *)
Definition absent_source_is_final (e : Element) : Prop :=
  is_script_class (class_of e) = true ->
  forall prop child,
    In prop (findall_descendant "Properties" e) ->
    first_named "Source" (children prop) = Some child ->
    text child = None ->
    find_source e = ""%string.

(** ** Induction over elements *)

Section ElementInduction.

Variable P : Element -> Prop.
Hypothesis Hnode :
  forall t a x cs, Forall P cs -> P (mkElement t a x cs).

Fixpoint Element_ind' (e : Element) : P e :=
  match e with
  | mkElement t a x cs =>
      Hnode t a x cs
        ((fix all (l : list Element) : Forall P l :=
            match l with
            | [] => @List.Forall_nil _ P
            | c :: l' => @List.Forall_cons _ P c l' (Element_ind' c) (all l')
            end) cs)
  end.

End ElementInduction.

(** * Properties *)

Local Open Scope list_scope.

Arguments PyStr.isspace : simpl never.
Arguments PyStr.isalnum : simpl never.

(** ** The accumulator and document order *)

Lemma append_own_acc element p acc :
  append_own element p acc = acc ++ own_record element p.
Proof.
  unfold own_record, append_own.
  destruct (is_script_class _); [| by rewrite app_nil_r].
  destruct (_extract_script _ _ _); [done | by rewrite app_nil_r].
Qed.

Lemma parse_children_acc cs path :
  Forall (fun c => forall p acc,
            _parse_element c p acc = acc ++ _parse_element c p []) cs ->
  forall acc,
    fold_left (fun scripts child => _parse_element child path scripts) cs acc
    = acc ++ flat_map (fun child => _parse_element child path []) cs.
Proof.
  induction 1 as [| c cs Hc _ IH]; intros acc; simpl.
  - by rewrite app_nil_r.
  - rewrite IH, Hc. by rewrite <- app_assoc.
Qed.

Lemma parse_element_acc e :
  forall p acc, _parse_element e p acc = acc ++ _parse_element e p [].
Proof.
  induction e as [t a x cs IH] using Element_ind'; intros p acc.
  cbn [_parse_element].
  rewrite !(parse_children_acc _ _ IH).
  rewrite (append_own_acc _ _ acc), (append_own_acc _ _ []).
  simpl. by rewrite <- app_assoc.
Qed.

Lemma parse_element_unfold e p acc :
  _parse_element e p acc
  = acc ++ own_record e p
        ++ flat_map (fun child => _parse_element child (current_path e p) [])
                    (children e).
Proof.
  destruct e as [t a x cs]. cbn [_parse_element children].
  rewrite parse_children_acc.
  - rewrite append_own_acc. by rewrite <- app_assoc.
  - apply Forall_forall. intros c _ p' acc'. apply parse_element_acc.
Qed.

Lemma flat_map_flat_map {A B C} (f : A -> list B) (g : B -> list C) l :
  flat_map g (flat_map f l) = flat_map (fun a => flat_map g (f a)) l.
Proof.
  induction l as [| a l IH]; simpl; [done |].
  by rewrite flat_map_app, IH.
Qed.

Lemma flat_map_ext_Forall {A B} (f g : A -> list B) l :
  Forall (fun a => f a = g a) l -> flat_map f l = flat_map g l.
Proof. induction 1 as [| a l Ha _ IH]; simpl; [done |]. by rewrite Ha, IH. Qed.

Lemma walk_visits e :
  forall p,
    _parse_element e p []
    = flat_map (fun v => own_record (fst v) (snd v)) (visits e p).
Proof.
  induction e as [t a x cs IH] using Element_ind'; intros p.
  rewrite parse_element_unfold. cbn [visits children flat_map fst snd app].
  f_equal. rewrite flat_map_flat_map.
  apply flat_map_ext_Forall.
  eapply Forall_impl; [exact IH |]. intros c Hc. apply Hc.
Qed.

Lemma visits_iter e : forall p, map fst (visits e p) = iter e.
Proof.
  induction e as [t a x cs IH] using Element_ind'; intros p.
  cbn [visits iter map fst]. f_equal.
  generalize (current_path (mkElement t a x cs) p). intros q.
  induction IH as [| c cs Hc _ IHcs]; simpl; [done |].
  by rewrite map_app, Hc, IHcs.
Qed.

(** C5: the output sequence is in document order. The walk of an element
    appends to what was collected before, first the element's own record
    (if any), then the records of its children, child by child in their
    original sequence; overall the output is the concatenation of the own
    records of the elements in the pre-order enumeration of the tree. *)
Theorem walk_document_order (e : Element) (p : string)
    (acc : list RobloxScript) :
  _parse_element e p acc
  = acc ++ own_record e p
        ++ flat_map (fun child => _parse_element child (current_path e p) [])
                    (children e)
  /\ _parse_element e p acc
     = acc ++ flat_map (fun v => own_record (fst v) (snd v)) (visits e p)
  /\ map fst (visits e p) = iter e.
Proof.
  split; [apply parse_element_unfold |].
  split; [| apply visits_iter].
  rewrite parse_element_acc. by rewrite walk_visits.
Qed.

(** ** Path composition *)

Lemma current_path_contributes e p :
  current_path e p
  = if contributes e
    then if PyStr.truthy p then PosixPath.join p (_get_element_name e)
         else _get_element_name e
    else p.
Proof. reflexivity. Qed.

Lemma truthy_nonempty s : PyStr.truthy s = true <-> s <> ""%string.
Proof. destruct s; simpl; split; congruence. Qed.

Lemma truthy_empty s : PyStr.truthy s = false <-> s = ""%string.
Proof. destruct s; simpl; split; congruence. Qed.



Lemma Visit_below root p0 c ancestors e p :
  In c (children root) ->
  Visit c (current_path root p0) ancestors e p ->
  Visit root p0 (root :: ancestors) e p.
Proof.
  intros Hc. induction 1 as [| ancestors e p child _ IH Hchild].
  - apply (Visit_child root p0 [] root p0 c); [constructor | done].
  - apply (Visit_child root p0 (root :: ancestors) e p child IH Hchild).
Qed.

Lemma walk_record_visited root :
  forall p0 r,
    In r (_parse_element root p0 []) ->
    exists ancestors e p,
      Visit root p0 ancestors e p /\ In r (own_record e p).
Proof.
  induction root as [t a x cs IH] using Element_ind'; intros p0 r Hr.
  rewrite parse_element_unfold in Hr. cbn [app children] in Hr.
  apply in_app_or in Hr as [Hr | Hr].
  - exists [], (mkElement t a x cs), p0. split; [constructor | done].
  - apply in_flat_map in Hr as (c & Hc & Hr).
    rewrite List.Forall_forall in IH.
    destruct (IH c Hc _ _ Hr) as (ancestors & e & p & Hv & Hown).
    exists (mkElement t a x cs :: ancestors), e, p. split; [| done].
    by apply (Visit_below _ _ c).
Qed.

Lemma Visit_path root p0 ancestors e p :
  Visit root p0 ancestors e p ->
  p = fold_left (fun q a => current_path a q) ancestors p0.
Proof.
  induction 1 as [| ancestors e p child _ IH _]; [done |].
  rewrite fold_left_app. simpl. by rewrite <- IH.
Qed.

Lemma fold_current_path ancestors :
  forall p0,
    fold_left (fun q a => current_path a q) ancestors p0
    = join_all p0 (map _get_element_name (List.filter contributes ancestors)).
Proof.
  induction ancestors as [| a ancestors IH]; intros p0; [done |].
  simpl. rewrite IH, current_path_contributes.
  destruct (contributes a); [| done].
  simpl. by destruct (PyStr.truthy p0).
Qed.

Lemma own_record_inv e p r :
  In r (own_record e p) ->
  is_script_class (class_of e) = true
  /\ _extract_script e (class_of e) p = Some r.
Proof.
  unfold own_record, append_own. fold (class_of e).
  destruct (is_script_class (class_of e)); [| by intros []].
  destruct (_extract_script e (class_of e) p) as [s |]; [| by intros []].
  simpl. intros [-> | []]. done.
Qed.

Lemma extract_script_fields e k p r :
  _extract_script e k p = Some r ->
  source r = find_source e /\ script_type r = k /\ parent_path r = p
  /\ PyStr.truthy (PyStr.strip (find_source e)) = true.
Proof.
  unfold _extract_script.
  destruct (PyStr.truthy (PyStr.strip (find_source e))); [| done].
  intros [= <-]. done.
Qed.



(** ** Stripping and sanitizing text *)

Lemma rstrip_empty s :
  PyStr.rstrip s = ""%string <-> PyStr.has_non_space s = false.
Proof.
  induction s as [| c s IH]; simpl; [done |].
  destruct (PyStr.rstrip s) as [| a r].
  - assert (PyStr.has_non_space s = false) as -> by by apply IH.
    destruct (PyStr.isspace c); simpl; split; congruence.
  - destruct (PyStr.has_non_space s).
    + rewrite orb_true_r. split; congruence.
    + destruct IH as [_ IH]. by specialize (IH eq_refl).
Qed.

Lemma has_non_space_rstrip s :
  PyStr.has_non_space (PyStr.rstrip s) = PyStr.has_non_space s.
Proof.
  induction s as [| c s IH]; simpl; [done |].
  pose proof (rstrip_empty s) as He.
  destruct (PyStr.rstrip s) as [| a r].
  - destruct He as [He _]. rewrite (He eq_refl).
    destruct (PyStr.isspace c) eqn:Hc; simpl; by rewrite ?Hc.
  - cbn [PyStr.has_non_space] in *. by rewrite IH.
Qed.

Lemma lstrip_truthy s :
  PyStr.truthy (PyStr.lstrip s) = PyStr.has_non_space s.
Proof.
  induction s as [| c s IH]; simpl; [done |].
  by destruct (PyStr.isspace c).
Qed.

Lemma strip_truthy s :
  PyStr.truthy (PyStr.strip s) = PyStr.has_non_space s.
Proof. unfold PyStr.strip. by rewrite lstrip_truthy, has_non_space_rstrip. Qed.

Lemma has_non_space_nonempty s :
  PyStr.has_non_space s = true -> s <> ""%string.
Proof. by destruct s. Qed.

(** C4: extraction returns no record exactly when the looked-up Source text
    is empty after stripping whitespace; a returned record carries the
    looked-up text unstripped. Hence the source of every emitted record is
    non-empty and has a character that is not whitespace. *)
Theorem extract_drops_blank_source :
  (forall e k p,
      (_extract_script e k p = None
       <-> PyStr.strip (find_source e) = ""%string)
      /\ (forall r, _extract_script e k p = Some r -> source r = find_source e))
  /\ (forall root r,
         In r (walk root) ->
         source r <> ""%string
         /\ PyStr.strip (source r) <> ""%string
         /\ PyStr.has_non_space (source r) = true).
Proof.
  split.
  - intros e k p. split.
    + unfold _extract_script. rewrite <- truthy_empty.
      destruct (PyStr.truthy (PyStr.strip (find_source e))); split; congruence.
    + intros r Hr. by destruct (extract_script_fields _ _ _ _ Hr).
  - intros root r Hr.
    destruct (walk_record_visited root _ _ Hr) as (ancestors & e & p & _ & Hown).
    destruct (own_record_inv _ _ _ Hown) as [_ Hex].
    destruct (extract_script_fields _ _ _ _ Hex) as (Hs & _ & _ & Ht).
    rewrite <- Hs in Ht. pose proof Ht as Hn.
    rewrite strip_truthy in Hn. apply truthy_nonempty in Ht.
    split; [by apply has_non_space_nonempty | done].
Qed.

Lemma filter_chars_list keep s :
  list_ascii_of_string (PyStr.filter_chars keep s)
  = List.filter keep (list_ascii_of_string s).
Proof.
  induction s as [| c s IH]; simpl; [done |].
  destruct (keep c); simpl; by rewrite IH.
Qed.

Lemma rstrip_split s :
  exists w,
    s = (PyStr.rstrip s ++ w)%string /\ PyStr.has_non_space w = false.
Proof.
  induction s as [| c s (w & Hs & Hw)]; simpl; [by exists ""%string |].
  destruct (PyStr.rstrip s) as [| a r] eqn:Hr.
  - change (s = w) in Hs. subst w.
    destruct (PyStr.isspace c) eqn:Hc.
    + exists (String c s). simpl. by rewrite Hc, Hw.
    + by exists s.
  - exists w. split; [| done].
    change (String c s = String c (String a r ++ w)%string).
    by rewrite <- Hs.
Qed.

Lemma append_nil_l (t : string) : (""%string ++ t)%string = t.
Proof. reflexivity. Qed.

Lemma append_cons_l c (s t : string) :
  (String c s ++ t)%string = String c (s ++ t)%string.
Proof. reflexivity. Qed.

Lemma append_singleton_tail (t : string) c :
  (t ++ String c "")%string <> ""%string.
Proof. destruct t; [rewrite append_nil_l | rewrite append_cons_l]; congruence. Qed.

Lemma rstrip_last s t c :
  PyStr.rstrip s = (t ++ String c "")%string -> PyStr.isspace c = false.
Proof.
  revert t. induction s as [| a s IH]; intros t; cbn [PyStr.rstrip].
  - intros H. symmetry in H. by apply append_singleton_tail in H.
  - destruct (PyStr.rstrip s) as [| b r] eqn:Hr.
    + destruct (PyStr.isspace a) eqn:Ha.
      * intros H. symmetry in H. by apply append_singleton_tail in H.
      * destruct t as [| x t].
        -- rewrite append_nil_l. congruence.
        -- rewrite append_cons_l. intros [= _ Ht].
           symmetry in Ht. by apply append_singleton_tail in Ht.
    + destruct t as [| x t].
      * rewrite append_nil_l. congruence.
      * rewrite append_cons_l. intros [= _ Ht]. by apply (IH t).
Qed.

Lemma keep_char_spec c :
  keep_char c = true
  <-> PyStr.isalnum c = true
      \/ c = " "%char \/ c = "-"%char \/ c = "_"%char.
Proof.
  unfold keep_char. rewrite !orb_true_iff, !Ascii.eqb_eq. tauto.
Qed.

(** C6: the file name of a record is a stem followed by an extension. The
    characters of the name that are alphanumeric, a space, a hyphen or an
    underscore, in their order, are the stem followed by whitespace only,
    and the stem does not end in whitespace; an empty stem is replaced by
    "script". The extension is .lua for ModuleScript, .client.lua for
    LocalScript and .server.lua for Script. *)
Theorem get_filename_sanitizes (r : RobloxScript) :
  exists stem w : string,
    (forall c,
        keep_char c = true
        <-> PyStr.isalnum c = true
            \/ c = " "%char \/ c = "-"%char \/ c = "_"%char)
    /\ List.filter keep_char (list_ascii_of_string (name r))
       = list_ascii_of_string (stem ++ w)%string
    /\ PyStr.has_non_space w = false
    /\ (forall t c, stem = (t ++ String c "")%string -> PyStr.isspace c = false)
    /\ clean_name r = (if PyStr.truthy stem then stem else "script"%string)
    /\ (script_type r = "ModuleScript"%string ->
        get_filename r = (clean_name r ++ ".lua")%string)
    /\ (script_type r = "LocalScript"%string ->
        get_filename r = (clean_name r ++ ".client.lua")%string)
    /\ (script_type r = "Script"%string ->
        get_filename r = (clean_name r ++ ".server.lua")%string).
Proof.
  destruct (rstrip_split (PyStr.filter_chars keep_char (name r)))
    as (w & Hs & Hw).
  exists (PyStr.rstrip (PyStr.filter_chars keep_char (name r))), w.
  split; [apply keep_char_spec |].
  split; [by rewrite <- Hs, filter_chars_list |].
  split; [done |].
  split; [intros t c; apply rstrip_last |].
  split.
  { unfold clean_name.
    by destruct (PyStr.truthy
                   (PyStr.rstrip (PyStr.filter_chars keep_char (name r)))). }
  unfold get_filename.
  repeat split; intros ->; reflexivity.
Qed.

(** ** Looking up the Source text *)

Lemma source_in_properties_app l1 l2 init :
  source_in_properties (l1 ++ l2) init
  = source_in_properties l2 (source_in_properties l1 init).
Proof.
  revert init. induction l1 as [| g l1 IH]; intros init; simpl; [done |].
  destruct (first_named "Source" (children g)); apply IH.
Qed.

Lemma source_in_properties_lacking l init :
  Forall (lacks "Source") l -> source_in_properties l init = init.
Proof.
  induction 1 as [| g l Hg _ IH]; simpl; [done |].
  unfold lacks in Hg. by rewrite Hg.
Qed.

Lemma source_in_properties_last l1 g l2 c init :
  first_named "Source" (children g) = Some c ->
  Forall (lacks "Source") l2 ->
  source_in_properties (l1 ++ g :: l2) init = PyStr.or_empty (text c).
Proof.
  intros Hc Hl2. rewrite source_in_properties_app. simpl. rewrite Hc.
  by apply source_in_properties_lacking.
Qed.

Lemma find_source_nonempty e :
  let a := source_in_properties (findall_descendant "Properties" e) "" in
  a <> ""%string -> find_source e = a.
Proof.
  intros a Ha. unfold find_source. fold a.
  apply truthy_nonempty in Ha. by rewrite Ha.
Qed.

Lemma find_source_empty e :
  let a := source_in_properties (findall_descendant "Properties" e) "" in
  a = ""%string ->
  find_source e
  = match findall_descendant_attr "string" "name" "Source" e with
    | [] => ""%string
    | string_elem :: _ => PyStr.or_empty (text string_elem)
    end.
Proof.
  intros a Ha. unfold find_source. fold a. rewrite Ha. simpl.
  by destruct (findall_descendant_attr _ _ _ _).
Qed.

(** C1, counterexample: a script whose only grouping has a Source entry
    without text, and which has a string leaf named Source beside the
    grouping, gets the text of that leaf: the lookup falls through to the
    flat search. *)
Lemma absent_source_falls_through :
  ~ absent_source_is_final Examples.absent_source_script.
Proof.
  intros H.
  assert (find_source Examples.absent_source_script = ""%string) as Hempty.
  { apply (H eq_refl
             (Examples.properties
                [Examples.leaf "string" "Name" (Some "Main"%string);
                 Examples.leaf "ProtectedString" "Source" None])
             (Examples.leaf "ProtectedString" "Source" None)).
    - vm_compute. auto.
    - vm_compute. reflexivity.
    - reflexivity. }
  vm_compute in Hempty. discriminate Hempty.
Qed.

(** C1 (as amended): the two lookups are tried in order. The text found in
    the groupings is the result exactly when it is non-empty. When it is
    empty, and it is empty in particular when the deciding Source entry has
    no text, the lookup falls through to the flat search: the result is the
    text of the first string leaf named Source beneath the element (the
    empty text when that leaf has none), and the empty text when there is
    no such leaf. *)
Theorem source_lookup_order (e : Element) :
  let a := source_in_properties (findall_descendant "Properties" e) "" in
  (a <> ""%string -> find_source e = a)
  /\ (a = ""%string ->
      find_source e
      = match findall_descendant_attr "string" "name" "Source" e with
        | [] => ""%string
        | string_elem :: _ => PyStr.or_empty (text string_elem)
        end)
  /\ (forall l1 g l2 c,
         findall_descendant "Properties" e = l1 ++ g :: l2 ->
         first_named "Source" (children g) = Some c ->
         Forall (lacks "Source") l2 ->
         text c = None ->
         a = ""%string).
Proof.
  intros a. split; [apply find_source_nonempty |].
  split; [apply find_source_empty |].
  intros l1 g l2 c Hl Hc Hl2 Ht. unfold a.
  rewrite Hl, (source_in_properties_last l1 g l2 c "" Hc Hl2). by rewrite Ht.
Qed.

(** C10: the scan over the groupings does not stop at the first match. The
    text taken from the groupings is that of the last grouping, in document
    order, with a Source entry, whatever the groupings before it hold; when
    that text is non-empty it is the looked-up source. *)
Theorem last_source_grouping_wins
    (e : Element) (l1 l2 : list Element) (g c : Element)
    (Hall : findall_descendant "Properties" e = l1 ++ g :: l2)
    (Hentry : first_named "Source" (children g) = Some c)
    (Hlast : Forall (lacks "Source") l2) :
  source_in_properties (findall_descendant "Properties" e) ""
  = PyStr.or_empty (text c)
  /\ (PyStr.or_empty (text c) <> ""%string ->
      find_source e = PyStr.or_empty (text c)).
Proof.
  pose proof (source_in_properties_last l1 g l2 c "" Hentry Hlast) as Ha.
  rewrite <- Hall in Ha. split; [done |].
  intros Hne. rewrite <- Ha in *. by apply find_source_nonempty.
Qed.

(** ** Resolving names *)

Lemma name_in_properties_first l1 g l2 c :
  Forall (lacks "Name") l1 ->
  first_named "Name" (children g) = Some c ->
  name_in_properties (l1 ++ g :: l2) = Some (PyStr.or_empty (text c)).
Proof.
  intros Hl1 Hc. induction Hl1 as [| p l1 Hp _ IH]; simpl.
  - by rewrite Hc.
  - unfold lacks in Hp. by rewrite Hp.
Qed.

Lemma name_in_properties_lacking l :
  Forall (lacks "Name") l -> name_in_properties l = None.
Proof.
  induction 1 as [| p l Hp _ IH]; simpl; [done |].
  unfold lacks in Hp. by rewrite Hp.
Qed.

Lemma descendants_children e c d :
  In c (children e) -> In d (iter c) -> In d (descendants e).
Proof. intros Hc Hd. apply in_flat_map. eauto. Qed.

Lemma findall_descendant_spec name e g :
  In g (findall_descendant name e)
  <-> In g (descendants e) /\ tag g = name.
Proof.
  unfold findall_descendant. rewrite filter_In, String.eqb_eq. tauto.
Qed.

Lemma first_named_found key cs pre c post :
  cs = pre ++ c :: post ->
  Forall (fun child => get child "name" <> Some key) pre ->
  get c "name" = Some key ->
  first_named key cs = Some c.
Proof.
  intros -> Hpre Hc. induction Hpre as [| x pre Hx _ IH]; simpl.
  - by rewrite bool_decide_eq_true_2.
  - by rewrite bool_decide_eq_false_2.
Qed.

Lemma first_named_absent key cs :
  Forall (fun child => get child "name" <> Some key) cs ->
  first_named key cs = None.
Proof.
  induction 1 as [| x cs Hx _ IH]; simpl; [done |].
  by rewrite bool_decide_eq_false_2.
Qed.

Lemma first_named_Some key cs c :
  first_named key cs = Some c ->
  exists pre post,
    cs = pre ++ c :: post
    /\ Forall (fun child => get child "name" <> Some key) pre
    /\ get c "name" = Some key.
Proof.
  induction cs as [| x cs IH]; simpl; [done |].
  case_bool_decide as Hx.
  - intros [= ->]. exists [], cs. split; [done |]. split; [| done].
    apply List.Forall_nil.
  - intros (pre & post & -> & Hpre & Hc)%IH.
    exists (x :: pre), post. split; [done |]. split; [| done].
    by apply List.Forall_cons.
Qed.

Lemma has_no_entry_lacks key l :
  Forall (has_no_entry key) l -> Forall (lacks key) l.
Proof.
  intros H. eapply Forall_impl; [exact H |].
  intros p Hp. by apply first_named_absent.
Qed.

(** C9: name resolution looks at the whole subtree. The groupings scanned
    are all the Properties elements among the descendants, in document
    order; the resolved name is the text of the first child with the name
    attribute "Name" in the first of those groupings that has such a
    child, whatever the tag of that child and whether or not the grouping
    is the element's own. Only when no child of any grouping has that
    attribute (and no string leaf named Name lies beneath the element) is
    the result the referent attribute, or without one the class
    attribute, or without one the empty text. *)
Theorem name_resolution_searches_subtree (e : Element) :
  (forall g,
      In g (findall_descendant "Properties" e)
      <-> In g (descendants e) /\ tag g = "Properties"%string)
  /\ (forall c d, In c (children e) -> In d (iter c) -> In d (descendants e))
  /\ (forall l1 g l2 pre c post,
         findall_descendant "Properties" e = l1 ++ g :: l2 ->
         Forall (has_no_entry "Name") l1 ->
         children g = pre ++ c :: post ->
         Forall (fun child => get child "name" <> Some "Name"%string) pre ->
         get c "name" = Some "Name"%string ->
         _get_element_name e = PyStr.or_empty (text c))
  /\ (Forall (has_no_entry "Name") (findall_descendant "Properties" e) ->
      forall s rest,
        findall_descendant_attr "string" "name" "Name" e = s :: rest ->
        _get_element_name e = PyStr.or_empty (text s))
  /\ (Forall (has_no_entry "Name") (findall_descendant "Properties" e) ->
      findall_descendant_attr "string" "name" "Name" e = [] ->
      _get_element_name e
      = match get e "referent" with
        | Some referent => referent
        | None => match get e "class" with
                  | Some class => class
                  | None => ""%string
                  end
        end).
Proof.
  split; [intros g; apply findall_descendant_spec |].
  split; [apply descendants_children |].
  unfold _get_element_name. repeat split.
  - intros l1 g l2 pre c post Hl Hl1 Hg Hpre Hc.
    rewrite Hl.
    by rewrite (name_in_properties_first l1 g l2 c
                  (has_no_entry_lacks _ _ Hl1)
                  (first_named_found _ _ pre c post Hg Hpre Hc)).
  - intros Hall s rest Hs.
    by rewrite (name_in_properties_lacking _ (has_no_entry_lacks _ _ Hall)),
         Hs.
  - intros Hall Hs.
    by rewrite (name_in_properties_lacking _ (has_no_entry_lacks _ _ Hall)),
         Hs.
Qed.

(** ** The worked example *)



Example unnamed_module_walk :
  walk Examples.unnamed_module
  = [mkRobloxScript "unnamed_modulescript" "return {}" "ModuleScript" ""]
  /\ map get_filename (walk Examples.unnamed_module)
     = ["unnamed_modulescript.lua"%string].
Proof. split; vm_compute; reflexivity. Qed.

Example blank_local_walk : walk Examples.blank_local = [].
Proof. vm_compute. reflexivity. Qed.

(** ** Counting by kind *)

Lemma count_script_lookup (m : gmap string nat) r k :
  count_script m r !! k
  = (fun n => if String.eqb (script_type r) k then n + 1 else n) <$> (m !! k).
Proof.
  unfold count_script.
  destruct (String.eqb_spec (script_type r) k) as [-> | Hne].
  - destruct (m !! k) as [n |] eqn:Hk; simpl.
    + by rewrite lookup_insert_eq.
    + by rewrite Hk.
  - destruct (m !! script_type r) as [n |].
    + rewrite lookup_insert_ne by done. by destruct (m !! k).
    + by destruct (m !! k).
Qed.

Lemma count_scripts_lookup rs :
  forall (m : gmap string nat) k,
    fold_left count_script rs m !! k
    = (fun n => n + List.length (get_scripts_by_type rs k)) <$> (m !! k).
Proof.
  induction rs as [| r rs IH]; intros m k; simpl.
  - destruct (m !! k); simpl; [f_equal; lia | done].
  - rewrite IH, count_script_lookup.
    destruct (m !! k); simpl; [| done].
    destruct (String.eqb (script_type r) k); simpl; f_equal; lia.
Qed.

Lemma count_script_dom (m : gmap string nat) r :
  dom (count_script m r) = dom m.
Proof.
  unfold count_script. destruct (m !! script_type r) as [n |] eqn:Hk; [| done].
  apply dom_insert_lookup_L. by rewrite Hk.
Qed.

Lemma count_scripts_dom rs :
  forall m : gmap string nat, dom (fold_left count_script rs m) = dom m.
Proof.
  induction rs as [| r rs IH]; intros m; simpl; [done |].
  by rewrite IH, count_script_dom.
Qed.

Lemma initial_counts_dom : dom initial_counts = script_kinds.
Proof.
  unfold initial_counts, script_kinds.
  rewrite !dom_insert_L, dom_empty_L. set_solver.
Qed.

Lemma script_kinds_size : size script_kinds = 3.
Proof.
  unfold script_kinds.
  rewrite !size_union, !size_singleton; [done | |].
  - apply disjoint_singleton_l. by intros ?%elem_of_singleton.
  - apply disjoint_union_l. split; apply disjoint_singleton_l;
      by intros ?%elem_of_singleton.
Qed.

Lemma is_script_class_cases k :
  is_script_class k = true ->
  k = "Script"%string \/ k = "LocalScript"%string \/ k = "ModuleScript"%string.
Proof.
  unfold is_script_class. rewrite !orb_true_iff, !String.eqb_eq. tauto.
Qed.

Lemma kinds_partition rs :
  Forall (fun r => is_script_class (script_type r) = true) rs ->
  List.length (get_scripts_by_type rs "Script")
  + List.length (get_scripts_by_type rs "LocalScript")
  + List.length (get_scripts_by_type rs "ModuleScript")
  = List.length rs.
Proof.
  induction 1 as [| r rs Hr _ IH]; [done |].
  unfold get_scripts_by_type in *. cbn [List.filter].
  destruct (is_script_class_cases _ Hr) as [-> | [-> | ->]]; simpl; lia.
Qed.

Lemma walk_kinds root :
  Forall (fun r => is_script_class (script_type r) = true) (walk root).
Proof.
  apply List.Forall_forall. intros r Hr.
  destruct (walk_record_visited root _ _ Hr) as (ancestors & e & p & _ & Hown).
  destruct (own_record_inv _ _ _ Hown) as [Hk Hex].
  destruct (extract_script_fields _ _ _ _ Hex) as (_ & -> & _). done.
Qed.

(** C7: the mapping returned for a record sequence has exactly the three
    keys Script, LocalScript and ModuleScript; for the empty sequence each
    is mapped to zero; each count is the number of records of that kind.
    The three counts sum to the length of the sequence when its records
    are of the three kinds, and so for the records of every walk. *)
Theorem get_script_count_spec :
  (forall records,
      dom (get_script_count records) = script_kinds
      /\ size (get_script_count records) = 3
      /\ (forall k,
             k ∈ script_kinds ->
             get_script_count records !! k
             = Some (List.length (get_scripts_by_type records k))))
  /\ (forall k, k ∈ script_kinds -> get_script_count [] !! k = Some 0)
  /\ (forall records,
         Forall (fun r => is_script_class (script_type r) = true) records ->
         exists a b c,
           get_script_count records !! "Script"%string = Some a
           /\ get_script_count records !! "LocalScript"%string = Some b
           /\ get_script_count records !! "ModuleScript"%string = Some c
           /\ a + b + c = List.length records)
  /\ (forall root,
         exists a b c,
           get_script_count (walk root) !! "Script"%string = Some a
           /\ get_script_count (walk root) !! "LocalScript"%string = Some b
           /\ get_script_count (walk root) !! "ModuleScript"%string = Some c
           /\ a + b + c = List.length (walk root)).
Proof.
  assert (Hdom : forall records,
             dom (get_script_count records) = script_kinds).
  { intros records. unfold get_script_count.
    by rewrite count_scripts_dom, initial_counts_dom. }
  assert (Hinit : forall k, k ∈ script_kinds -> initial_counts !! k = Some 0).
  { intros k Hk. unfold script_kinds in Hk.
    apply elem_of_union in Hk as [Hk | Hk];
      [apply elem_of_union in Hk as [Hk | Hk] |];
      apply elem_of_singleton in Hk; subst k; reflexivity. }
  assert (Hcount : forall records k,
             k ∈ script_kinds ->
             get_script_count records !! k
             = Some (List.length (get_scripts_by_type records k))).
  { intros records k Hk. unfold get_script_count.
    by rewrite count_scripts_lookup, (Hinit k Hk). }
  assert (Hsum : forall records,
             Forall (fun r => is_script_class (script_type r) = true) records ->
             exists a b c,
               get_script_count records !! "Script"%string = Some a
               /\ get_script_count records !! "LocalScript"%string = Some b
               /\ get_script_count records !! "ModuleScript"%string = Some c
               /\ a + b + c = List.length records).
  { intros records Hvalid.
    exists (List.length (get_scripts_by_type records "Script")),
           (List.length (get_scripts_by_type records "LocalScript")),
           (List.length (get_scripts_by_type records "ModuleScript")).
    repeat split; [apply Hcount .. | by apply kinds_partition];
      unfold script_kinds; set_solver. }
  split.
  { intros records. split; [apply Hdom |].
    split; [by rewrite <- size_dom, Hdom, script_kinds_size |].
    apply Hcount. }
  split; [exact Hinit |].
  split; [exact Hsum |].
  intros root. apply Hsum, walk_kinds.
Qed.

(** ** Parsing twice *)

Lemma alloc_fresh st : lists st !! snd (alloc st) = None.
Proof.
  simpl. apply not_elem_of_dom. apply is_fresh.
Qed.

Lemma contents_walk_into_eq l root st :
  contents (walk_into l root st) l = _parse_element root "" (contents st l).
Proof. unfold contents, walk_into. simpl. by rewrite lookup_insert_eq. Qed.

Lemma contents_walk_into_ne l l' root st :
  l <> l' -> contents (walk_into l root st) l' = contents st l'.
Proof.
  intros Hne. unfold contents, walk_into. simpl.
  by rewrite lookup_insert_ne.
Qed.

Lemma contents_alloc_eq st : contents (fst (alloc st)) (snd (alloc st)) = [].
Proof. unfold contents. simpl. by rewrite lookup_insert_eq. Qed.

Lemma contents_alloc_ne st l :
  l <> snd (alloc st) -> contents (fst (alloc st)) l = contents st l.
Proof.
  intros Hne. unfold contents. simpl. by rewrite lookup_insert_ne.
Qed.

Lemma parse_file_parsed fs file_path root st self :
  fs file_path = Some (Parsed root) ->
  has_roblox_extension file_path = true ->
  parse_file fs file_path st self
  = (walk_into (snd (alloc st)) root (fst (alloc st)),
     mkParser (snd (alloc st)), Return (snd (alloc st))).
Proof. intros Hfs Hext. unfold parse_file. by rewrite Hfs, Hext. Qed.

(** C8: parsing the same decoded tree twice with one parser gives two
    record sequences equal in content and order. Whatever the parser held
    before, each call returns a list object holding exactly the walk of the
    tree; the second call returns another object than the first and leaves
    the first one as it was. *)
Theorem parse_file_twice
    (fs : FileSystem) (file_path : string) (root : Element)
    (st : Store) (self : RobloxFileParser)
    (Hfs : fs file_path = Some (Parsed root))
    (Hext : has_roblox_extension file_path = true) :
  exists st1 self1 l1 st2 self2 l2,
    parse_file fs file_path st self = (st1, self1, Return l1)
    /\ parse_file fs file_path st1 self1 = (st2, self2, Return l2)
    /\ contents st1 l1 = walk root
    /\ contents st2 l2 = walk root
    /\ contents st2 l1 = contents st1 l1
    /\ contents st2 l1 = contents st2 l2
    /\ l1 <> l2.
Proof.
  set (st1 := walk_into (snd (alloc st)) root (fst (alloc st))).
  set (l1 := snd (alloc st)).
  set (st2 := walk_into (snd (alloc st1)) root (fst (alloc st1))).
  set (l2 := snd (alloc st1)).
  assert (Hne : l1 <> l2).
  { intros Heq. pose proof (alloc_fresh st1) as Hfresh. fold l2 in Hfresh.
    rewrite <- Heq in Hfresh. unfold st1, walk_into in Hfresh.
    cbn [lists] in Hfresh. fold l1 in Hfresh.
    by rewrite lookup_insert_eq in Hfresh. }
  assert (H1 : contents st1 l1 = walk root).
  { unfold st1, l1. by rewrite contents_walk_into_eq, contents_alloc_eq. }
  assert (H2 : contents st2 l2 = walk root).
  { unfold st2, l2. by rewrite contents_walk_into_eq, contents_alloc_eq. }
  assert (H3 : contents st2 l1 = contents st1 l1).
  { unfold st2. rewrite contents_walk_into_ne by (fold l2; congruence).
    apply contents_alloc_ne. fold l2. done. }
  exists st1, (mkParser l1), l1, st2, (mkParser l2), l2.
  split; [by apply parse_file_parsed |].
  split; [by apply parse_file_parsed |].
  repeat split; try done. by rewrite H3, H1, H2.
Qed.

(** ** The theorems at concrete inputs *)
Lemma source_lookup_order_witness :
  source_in_properties
    (findall_descendant "Properties" Examples.absent_source_script) ""
  = ""%string
  /\ find_source Examples.absent_source_script = "print(1)"%string.
Proof.
  split; [vm_compute; reflexivity |].
  etransitivity.
  - apply (proj1 (proj2 (source_lookup_order Examples.absent_source_script))).
    vm_compute. reflexivity.
  - vm_compute. reflexivity.
Defined.


Lemma extract_drops_blank_source_witness :
  In Instances.main_record (walk Examples.data_model)
  /\ source Instances.main_record <> ""%string
  /\ PyStr.strip (source Instances.main_record) <> ""%string
  /\ PyStr.has_non_space (source Instances.main_record) = true.
Proof.
  split; [vm_compute; auto |].
  apply (proj2 extract_drops_blank_source Examples.data_model).
  vm_compute. auto.
Defined.

Lemma get_filename_sanitizes_witness :
  script_type Instances.main_record = "Script"%string
  /\ get_filename Instances.main_record
     = (clean_name Instances.main_record ++ ".server.lua")%string.
Proof.
  split; [reflexivity |].
  destruct (get_filename_sanitizes Instances.main_record)
    as (stem & w & _ & _ & _ & _ & _ & _ & _ & H).
  apply H. reflexivity.
Defined.

Lemma get_script_count_spec_witness :
  Forall (fun r => is_script_class (script_type r) = true)
         [Instances.main_record; Instances.util_record]
  /\ exists a b c,
       get_script_count [Instances.main_record; Instances.util_record]
         !! "Script"%string = Some a
       /\ get_script_count [Instances.main_record; Instances.util_record]
            !! "LocalScript"%string = Some b
       /\ get_script_count [Instances.main_record; Instances.util_record]
            !! "ModuleScript"%string = Some c
       /\ a + b + c
          = List.length [Instances.main_record; Instances.util_record].
Proof.
  assert (Forall (fun r => is_script_class (script_type r) = true)
                 [Instances.main_record; Instances.util_record]) as Hvalid.
  { repeat (apply List.Forall_cons; [reflexivity |]). apply List.Forall_nil. }
  split; [exact Hvalid |].
  apply (proj1 (proj2 (proj2 get_script_count_spec))).
  exact Hvalid.
Defined.

Lemma parse_file_twice_witness :
  Instances.one_file "model.rbxm" = Some (Parsed Examples.data_model)
  /\ has_roblox_extension "model.rbxm" = true
  /\ exists st1 self1 l1 st2 self2 l2,
       parse_file Instances.one_file "model.rbxm" (mkStore ∅) (mkParser 0)
       = (st1, self1, Return l1)
       /\ parse_file Instances.one_file "model.rbxm" st1 self1
          = (st2, self2, Return l2)
       /\ contents st1 l1 = walk Examples.data_model
       /\ contents st2 l2 = walk Examples.data_model
       /\ contents st2 l1 = contents st1 l1
       /\ contents st2 l1 = contents st2 l2
       /\ l1 <> l2.
Proof.
  split; [reflexivity |]. split; [vm_compute; reflexivity |].
  apply (parse_file_twice Instances.one_file "model.rbxm" Examples.data_model).
  - reflexivity.
  - vm_compute. reflexivity.
Defined.

Lemma name_resolution_searches_subtree_witness :
  findall_descendant "Properties" Samples.named_by_descendant
  = [Samples.plain_grouping] ++ Samples.content_name_grouping :: []
  /\ get Samples.named_by_descendant "referent" = Some "R"%string
  /\ findall_descendant_attr "string" "name" "Name"
       Samples.named_by_descendant = []
  /\ _get_element_name Samples.named_by_descendant = "X"%string.
Proof.
  split; [vm_compute; reflexivity |].
  split; [vm_compute; reflexivity |].
  split; [vm_compute; reflexivity |].
  apply (proj1 (proj2 (proj2
           (name_resolution_searches_subtree Samples.named_by_descendant)))
           [Samples.plain_grouping] Samples.content_name_grouping []
           [Examples.leaf "bool" "Anchored" (Some "true"%string)]
           (Examples.leaf "Content" "Name" (Some "X"%string))
           []).
  - vm_compute. reflexivity.
  - apply List.Forall_cons; [| apply List.Forall_nil].
    apply List.Forall_cons; [vm_compute; discriminate | apply List.Forall_nil].
  - reflexivity.
  - apply List.Forall_cons; [vm_compute; discriminate | apply List.Forall_nil].
  - vm_compute. reflexivity.
Defined.

Lemma last_source_grouping_wins_witness :
  source_in_properties
    (findall_descendant "Properties" Examples.two_sources_script) ""
  = "second"%string
  /\ find_source Examples.two_sources_script = "second"%string.
Proof.
  destruct (last_source_grouping_wins Examples.two_sources_script
              [Examples.properties
                 [Examples.leaf "string" "Name" (Some "Main"%string);
                  Examples.leaf "ProtectedString" "Source"
                    (Some "first"%string)]]
              []
              (Examples.properties
                 [Examples.leaf "string" "Name" (Some "Inner"%string);
                  Examples.leaf "string" "Source" (Some "second"%string)])
              (Examples.leaf "string" "Source" (Some "second"%string)))
    as [Ha Hf].
  - vm_compute. reflexivity.
  - vm_compute. reflexivity.
  - apply List.Forall_nil.
  - split; [exact Ha |]. apply Hf. discriminate.
Defined.

(** * Further properties *)

(** ** Prefixes, suffixes and lower case *)

Local Open Scope string_scope.

Lemma append_nil_r (s : string) : s ++ "" = s.
Proof. induction s as [| c s IH]; [done |]. by rewrite append_cons_l, IH. Qed.

Lemma append_assoc (a b c : string) : (a ++ b) ++ c = a ++ (b ++ c).
Proof.
  induction a as [| x a IH]; [done |]. by rewrite !append_cons_l, IH.
Qed.

Lemma append_inv_head (a b c : string) : a ++ b = a ++ c -> b = c.
Proof.
  induction a as [| x a IH]; [done |].
  rewrite !append_cons_l. intros [= H]. by apply IH.
Qed.

Lemma prefix_spec (p s : string) :
  String.prefix p s = true <-> exists t, s = p ++ t.
Proof.
  revert s. induction p as [| c p IH]; intros s.
  - split; [intros _; by exists s | by destruct s].
  - destruct s as [| d s]; cbn [String.prefix].
    + split; [done | intros [t Ht]; by rewrite append_cons_l in Ht].
    + destruct (ascii_dec c d) as [-> | Hne].
      * rewrite IH. split; intros [t Ht]; exists t.
        -- by rewrite append_cons_l, Ht.
        -- rewrite append_cons_l in Ht. congruence.
      * split; [done |]. intros [t Ht]. rewrite append_cons_l in Ht.
        congruence.
Qed.

Lemma rev_string_app (a b : string) :
  PyStr.rev_string (a ++ b) = PyStr.rev_string b ++ PyStr.rev_string a.
Proof.
  induction a as [| x a IH]; cbn [PyStr.rev_string].
  - by rewrite append_nil_l, append_nil_r.
  - by rewrite append_cons_l; cbn [PyStr.rev_string]; rewrite IH, append_assoc.
Qed.

Lemma rev_string_involutive (s : string) :
  PyStr.rev_string (PyStr.rev_string s) = s.
Proof.
  induction s as [| c s IH]; [done |]. cbn [PyStr.rev_string].
  by rewrite rev_string_app, IH.
Qed.

Lemma endswith_spec (suffix s : string) :
  PyStr.endswith suffix s = true <-> exists t, s = t ++ suffix.
Proof.
  unfold PyStr.endswith. rewrite prefix_spec. split; intros [t Ht].
  - exists (PyStr.rev_string t).
    rewrite <- (rev_string_involutive s), Ht, rev_string_app.
    by rewrite rev_string_involutive.
  - exists (PyStr.rev_string t). by rewrite Ht, rev_string_app.
Qed.

Lemma startswith_spec (p s : string) :
  PyStr.startswith p s = true <-> exists t, s = p ++ t.
Proof. apply prefix_spec. Qed.

Lemma lower_app (a b : string) :
  PyStr.lower (a ++ b) = PyStr.lower a ++ PyStr.lower b.
Proof.
  induction a as [| x a IH]; [done |].
  rewrite append_cons_l. cbn [PyStr.lower]. by rewrite append_cons_l, IH.
Qed.

Lemma lower_app_inv (s a b : string) :
  PyStr.lower s = a ++ b ->
  exists s1 s2, s = s1 ++ s2 /\ PyStr.lower s1 = a /\ PyStr.lower s2 = b.
Proof.
  revert s. induction a as [| x a IH]; intros s.
  - rewrite append_nil_l. intros H. by exists "", s.
  - rewrite append_cons_l. destruct s as [| c s]; [done |].
    cbn [PyStr.lower]. intros [= Hc Hs].
    destruct (IH s Hs) as (s1 & s2 & -> & <- & <-).
    exists (String c s1), s2.
    split; [by rewrite append_cons_l |].
    split; [cbn [PyStr.lower]; by rewrite Hc | done].
Qed.

(** X1: the extension test on a path ignores case and looks at the end of
    the path only: a path passes exactly when it is some text followed by
    an ending that is ".rbxm" or ".rbxl" once put in lower case. *)
Theorem has_roblox_extension_spec (file_path : string) :
  has_roblox_extension file_path = true
  <-> exists stem ending,
        file_path = stem ++ ending
        /\ (PyStr.lower ending = ".rbxm" \/ PyStr.lower ending = ".rbxl").
Proof.
  unfold has_roblox_extension. rewrite orb_true_iff, !endswith_spec. split.
  - intros [[t Ht] | [t Ht]]; apply lower_app_inv in Ht
      as (s1 & s2 & -> & _ & Hs2); exists s1, s2; auto.
  - intros (stem & ending & -> & [He | He]); [left | right];
      exists (PyStr.lower stem); by rewrite lower_app, He.
Qed.

Local Open Scope list_scope.

(** ** Validation and the errors of [parse_file] *)

Lemma has_roblox_extension_witness :
  has_roblox_extension "Place.RbxL" = true.
Proof.
  apply (proj2 (has_roblox_extension_spec "Place.RbxL")).
  exists "Place"%string, ".RbxL"%string. split; [reflexivity |].
  right. vm_compute. reflexivity.
Defined.

(** X2: what the outcomes of [parse_file] tell. When it returns a list,
    the file exists, has the extension and decoded to a tree; the list is
    a new object holding exactly the walk of that tree, and the lists
    handed out before are as they were. FileNotFoundError is raised
    exactly when the file does not exist, whatever its extension, and
    ValueError exactly when an existing file has another extension or does
    not decode; both leave the store and the parser as they were, so the
    result of an earlier parse is still there. *)
Theorem parse_file_outcomes
    (fs : FileSystem) (file_path : string)
    (st : Store) (self : RobloxFileParser) :
  let '(st', self', outcome) := parse_file fs file_path st self in
  (forall l,
      outcome = Return l ->
      exists root,
        fs file_path = Some (Parsed root)
        /\ has_roblox_extension file_path = true
        /\ scripts self' = l
        /\ contents st' l = walk root
        /\ lists st !! l = None
        /\ (forall l', l' <> l -> lists st' !! l' = lists st !! l'))
  /\ (outcome = FileNotFoundError <-> fs file_path = None)
  /\ (outcome = ValueError
      <-> exists decoded,
            fs file_path = Some decoded
            /\ (has_roblox_extension file_path = false
                \/ decoded = Malformed))
  /\ (outcome = FileNotFoundError \/ outcome = ValueError ->
      st' = st /\ self' = self).
Proof.
  unfold parse_file.
  destruct (fs file_path) as [[| | root] |] eqn:Hfs;
    destruct (has_roblox_extension file_path) eqn:Hext; cbn [negb].
  all: split; [| split; [| split]].
  all: try (intros l Hl; discriminate Hl).
  all: try (split; [intros Ho | intros Hn]; (discriminate || done); fail).
  all: try (intros _; done).
  all: try (split; [intros _; eexists; split; [reflexivity | auto]
                   | done]; fail).
  all: try (split; [intros Ho; discriminate Ho
                   | intros (d & [= <-] & [He | Hd]); discriminate]; fail).
  all: try (intros [Ho | Ho]; discriminate Ho).
  - intros l [= <-]. exists root. cbn [scripts].
    split; [done |]. split; [done |]. split; [done |].
    split; [| split].
    + unfold contents, walk_into. cbn [lists].
      rewrite lookup_insert_eq. cbn [default id].
      unfold contents. cbn [lists]. by rewrite lookup_insert_eq.
    + apply not_elem_of_dom, is_fresh.
    + intros l' Hne. unfold walk_into. cbn [lists].
      rewrite lookup_insert_ne by done. by rewrite lookup_insert_ne.
Qed.

(** X3: the command line's check agrees with [parse_file]. When it accepts
    a path it prints nothing, and [parse_file] on that path cannot raise
    FileNotFoundError and raises ValueError only for a file that does not
    decode; when it rejects a path it prints one line, and [parse_file]
    would have raised FileNotFoundError or ValueError without touching the
    parser. *)
Theorem validate_input_file_agrees
    (fs : FileSystem) (file_path : string)
    (st : Store) (self : RobloxFileParser) :
  let '(ok, printed) := validate_input_file fs file_path in
  let '(st', self', outcome) := parse_file fs file_path st self in
  (ok = true
   <-> exists decoded,
         fs file_path = Some decoded /\ has_roblox_extension file_path = true)
  /\ (ok = true ->
      printed = []
      /\ outcome <> FileNotFoundError
      /\ (outcome = ValueError -> fs file_path = Some Malformed))
  /\ (ok = false ->
      (exists line, printed = [line])
      /\ (outcome = FileNotFoundError \/ outcome = ValueError)
      /\ st' = st /\ self' = self).
Proof.
  unfold validate_input_file, parse_file.
  destruct (fs file_path) as [[| | root] |] eqn:Hfs;
    destruct (has_roblox_extension file_path) eqn:Hext; cbn [negb].
  all: split; [| split].
  all: try (split; [intros Hok | intros (d & Hd & He)];
            try discriminate; eauto; fail).
  all: try (intros Hok; discriminate).
  all: intros _; repeat split; eauto; try discriminate.
Qed.

(** ** File names and paths *)

Lemma list_ascii_app (a b : string) :
  list_ascii_of_string (a ++ b)%string
  = list_ascii_of_string a ++ list_ascii_of_string b.
Proof.
  induction a as [| c a IH]; [done |].
  rewrite append_cons_l. simpl. by rewrite IH.
Qed.

Lemma list_ascii_inj (a b : string) :
  list_ascii_of_string a = list_ascii_of_string b -> a = b.
Proof.
  revert b. induction a as [| c a IH]; intros [| d b]; simpl; try done.
  intros [= -> H]. f_equal. by apply IH.
Qed.

Lemma filter_chars_kept keep s :
  Forall (fun c => keep c = true)
         (list_ascii_of_string (PyStr.filter_chars keep s)).
Proof.
  rewrite filter_chars_list. apply List.Forall_forall.
  intros c Hc. by apply filter_In in Hc as [_ Hc].
Qed.

Lemma rstrip_chars s :
  exists w,
    list_ascii_of_string s
    = list_ascii_of_string (PyStr.rstrip s) ++ list_ascii_of_string w.
Proof.
  destruct (rstrip_split s) as (w & Hs & _). exists w.
  by rewrite <- list_ascii_app, <- Hs.
Qed.

Lemma clean_name_chars r :
  Forall (fun c => keep_char c = true) (list_ascii_of_string (clean_name r)).
Proof.
  unfold clean_name.
  set (kept := PyStr.filter_chars keep_char (name r)).
  destruct (PyStr.truthy (PyStr.rstrip kept)); cbn [negb].
  - pose proof (filter_chars_kept keep_char (name r)) as Hk. fold kept in Hk.
    destruct (rstrip_chars kept) as (w & Hw). rewrite Hw in Hk.
    by apply Forall_app in Hk as [Hk _].
  - repeat (apply List.Forall_cons; [reflexivity |]). apply List.Forall_nil.
Qed.

Lemma clean_name_nonempty r : PyStr.truthy (clean_name r) = true.
Proof.
  unfold clean_name.
  by destruct (PyStr.truthy (PyStr.rstrip _)) eqn:Ht; cbn [negb].
Qed.

Lemma get_filename_extension r :
  exists ext,
    In ext [".lua"%string; ".client.lua"%string; ".server.lua"%string]
    /\ get_filename r = (clean_name r ++ ext)%string.
Proof.
  unfold get_filename.
  destruct (String.eqb (script_type r) "ModuleScript");
    [| destruct (String.eqb (script_type r) "LocalScript")];
    eexists; (split; [| reflexivity]); simpl; auto.
Qed.

Lemma get_filename_chars r :
  Forall filename_char (list_ascii_of_string (get_filename r)).
Proof.
  destruct (get_filename_extension r) as (ext & Hext & ->).
  rewrite list_ascii_app. apply Forall_app. split.
  - eapply Forall_impl; [apply clean_name_chars |]. intros c Hc. by left.
  - simpl in Hext. destruct Hext as [<- | [<- | [<- | []]]];
      repeat (apply List.Forall_cons;
              [first [by right | by left] |]);
      apply List.Forall_nil.
Qed.

Lemma get_filename_not_absolute r :
  PyStr.startswith PosixPath.sep (get_filename r) = false.
Proof.
  pose proof (get_filename_chars r) as Hc.
  destruct (get_filename r) as [| c f]; [done |].
  apply Forall_cons in Hc as [Hc _].
  unfold PyStr.startswith, PosixPath.sep. cbn [String.prefix].
  destruct (ascii_dec "/" c) as [<- | Hne]; [| done].
  by destruct Hc.
Qed.

(** X4: a file name is one safe path component. It is a non-empty stem
    followed by one of the three extensions, and all its characters are
    alphanumeric, a space, a hyphen, an underscore or a dot; so it holds no
    path separator and no line feed, whatever the name of the script. *)
Theorem get_filename_component (r : RobloxScript) :
  (exists ext,
      In ext [".lua"%string; ".client.lua"%string; ".server.lua"%string]
      /\ get_filename r = (clean_name r ++ ext)%string)
  /\ clean_name r <> ""%string
  /\ Forall (fun c => PyStr.isalnum c = true
                      \/ In c [" "; "-"; "_"; "."]%char)
            (list_ascii_of_string (get_filename r))
  /\ ~ In "/"%char (list_ascii_of_string (get_filename r))
  /\ ~ In "010"%char (list_ascii_of_string (get_filename r)).
Proof.
  pose proof (get_filename_chars r) as Hc.
  split; [apply get_filename_extension |].
  split; [apply truthy_nonempty, clean_name_nonempty |].
  rewrite List.Forall_forall in Hc.
  split; [| split].
  - apply List.Forall_forall. intros c Hin.
    destruct (Hc c Hin) as [Hk | ->]; [| right; simpl; auto].
    apply keep_char_spec in Hk as [Hk | [-> | [-> | ->]]];
      [by left | right; simpl; auto ..].
  - intros Hin. by destruct (Hc _ Hin).
  - intros Hin. by destruct (Hc _ Hin).
Qed.

(** X5: the full path always ends with the file name and keeps the parent
    path in front of it: the file name never starts with the separator, so
    the join cannot discard the parent path. Without a parent path it is
    the file name; otherwise it is the parent path, a separator unless the
    parent path ends with one, and the file name. *)
Theorem get_full_path_keeps_parent (r : RobloxScript) :
  (parent_path r = ""%string -> get_full_path r = get_filename r)
  /\ (parent_path r <> ""%string ->
      PyStr.endswith PosixPath.sep (parent_path r) = false ->
      get_full_path r = (parent_path r ++ "/" ++ get_filename r)%string)
  /\ (PyStr.endswith PosixPath.sep (parent_path r) = true ->
      get_full_path r = (parent_path r ++ get_filename r)%string).
Proof.
  unfold get_full_path, PosixPath.join.
  rewrite get_filename_not_absolute.
  split; [by intros -> |]. split.
  - intros Hne He. apply truthy_nonempty in Hne. by rewrite Hne, He.
  - intros He. rewrite He, orb_true_r.
    destruct (PyStr.truthy (parent_path r)) eqn:Hp; [done |].
    apply truthy_empty in Hp. by rewrite Hp in He.
Qed.

Lemma filter_chars_id keep s :
  Forall (fun c => keep c = true) (list_ascii_of_string s) ->
  PyStr.filter_chars keep s = s.
Proof.
  induction s as [| c s IH]; [done |]. simpl.
  intros [Hc Hs]%Forall_cons. by rewrite Hc, IH.
Qed.

Lemma rstrip_idempotent s : PyStr.rstrip (PyStr.rstrip s) = PyStr.rstrip s.
Proof.
  induction s as [| c s IH]; [done |]. cbn [PyStr.rstrip].
  destruct (PyStr.rstrip s) as [| a r] eqn:Hr.
  - destruct (PyStr.isspace c) eqn:Hc; [done |].
    cbn [PyStr.rstrip]. by rewrite Hc.
  - change (PyStr.rstrip (String c (String a r)))
      with (match PyStr.rstrip (String a r) with
            | EmptyString =>
                if PyStr.isspace c then EmptyString else String c EmptyString
            | r' => String c r'
            end).
    by rewrite IH.
Qed.

(** X6: cleaning a name is idempotent: a script renamed to its cleaned
    name gets the same cleaned name, and so the same file name. *)
Theorem clean_name_idempotent (r : RobloxScript) :
  clean_name
    (mkRobloxScript (clean_name r) (source r) (script_type r) (parent_path r))
  = clean_name r
  /\ get_filename
       (mkRobloxScript (clean_name r) (source r) (script_type r)
                       (parent_path r))
     = get_filename r.
Proof.
  assert (Hclean :
            clean_name
              (mkRobloxScript (clean_name r) (source r) (script_type r)
                              (parent_path r))
            = clean_name r).
  { pose proof (clean_name_chars r) as Hc.
    pose proof (clean_name_nonempty r) as Hn.
    unfold clean_name at 1. cbn [name].
    rewrite (filter_chars_id _ _ Hc).
    assert (PyStr.rstrip (clean_name r) = clean_name r) as ->.
    { unfold clean_name.
      destruct (PyStr.truthy (PyStr.rstrip _)); cbn [negb];
        [apply rstrip_idempotent | reflexivity]. }
    by rewrite Hn. }
  split; [done |]. unfold get_filename. cbn [script_type]. by rewrite Hclean.
Qed.

(** ** Where the exporter writes *)

Lemma startswith_sep_app (a b : string) :
  a <> ""%string ->
  PyStr.startswith PosixPath.sep (a ++ b)%string
  = PyStr.startswith PosixPath.sep a.
Proof.
  destruct a as [| c a]; [done |]. intros _. rewrite append_cons_l.
  unfold PyStr.startswith, PosixPath.sep. cbn [String.prefix].
  destruct (ascii_dec _ c); [| reflexivity].
  by destruct a, b.
Qed.

Lemma join_relative (a b : string) :
  PyStr.startswith PosixPath.sep b = false ->
  exists mid,
    (mid = ""%string \/ mid = "/"%string)
    /\ PosixPath.join a b = (a ++ mid ++ b)%string.
Proof.
  intros Hb. unfold PosixPath.join. rewrite Hb.
  destruct (negb (PyStr.truthy a) || PyStr.endswith PosixPath.sep a).
  - exists ""%string. split; [by left | by rewrite append_nil_l].
  - exists "/"%string. split; [by right | done].
Qed.

Lemma join_absolute (a b : string) :
  PyStr.startswith PosixPath.sep b = true -> PosixPath.join a b = b.
Proof. intros Hb. unfold PosixPath.join. by rewrite Hb. Qed.

Lemma join_startswith (a b : string) :
  a <> ""%string ->
  PyStr.startswith PosixPath.sep b = false ->
  PyStr.startswith PosixPath.sep (PosixPath.join a b)
  = PyStr.startswith PosixPath.sep a.
Proof.
  intros Ha Hb. destruct (join_relative a b Hb) as (mid & _ & ->).
  by apply startswith_sep_app.
Qed.

Lemma get_full_path_startswith r :
  PyStr.startswith PosixPath.sep (get_full_path r)
  = PyStr.startswith PosixPath.sep (parent_path r).
Proof.
  unfold get_full_path.
  destruct (PyStr.truthy (parent_path r)) eqn:Hp.
  - apply join_startswith; [by apply truthy_nonempty |].
    apply get_filename_not_absolute.
  - apply truthy_empty in Hp. rewrite Hp. apply get_filename_not_absolute.
Qed.

Lemma export_file_path_join self r output_dir :
  export_file_path self r output_dir
  = PosixPath.join output_dir (summary_path self r).
Proof.
  unfold export_file_path, summary_path. by destruct (preserve_hierarchy self).
Qed.

Lemma export_file_path_relative self r output_dir :
  preserve_hierarchy self = false
  \/ PyStr.startswith PosixPath.sep (parent_path r) = false ->
  exists mid,
    (mid = ""%string \/ mid = "/"%string)
    /\ export_file_path self r output_dir
       = (output_dir ++ mid ++ summary_path self r)%string.
Proof.
  intros Hcase. rewrite export_file_path_join. apply join_relative.
  unfold summary_path. destruct (preserve_hierarchy self).
  - destruct Hcase as [Hflat | Hrel]; [done |].
    by rewrite get_full_path_startswith.
  - apply get_filename_not_absolute.
Qed.

Lemma record_parent_path root r :
  In r (walk root) ->
  exists ancestors e,
    Visit root "" ancestors e (parent_path r)
    /\ In r (own_record e (parent_path r))
    /\ parent_path r
       = join_all ""
           (map _get_element_name (List.filter contributes ancestors)).
Proof.
  intros Hr.
  destruct (walk_record_visited root _ _ Hr) as (ancestors & e & p & Hv & Hown).
  destruct (own_record_inv _ _ _ Hown) as [_ Hex].
  destruct (extract_script_fields _ _ _ _ Hex) as (_ & _ & Hp & _).
  subst p. exists ancestors, e. repeat split; try done.
  rewrite (Visit_path _ _ _ _ _ Hv) at 1. apply fold_current_path.
Qed.

(** X7: the path a script is written to is the output directory joined
    with the path the summary lists for it. In flat mode, and in hierarchy
    mode when the parent path does not start with the separator, it is the
    output directory, at most one separator, and that listed path. In
    hierarchy mode a parent path starting with the separator makes the
    join drop the output directory: the script is written to its full path
    as it stands. *)
Theorem export_file_path_cases
    (self : RobloxExporter) (r : RobloxScript) (output_dir : string) :
  export_file_path self r output_dir
  = PosixPath.join output_dir (summary_path self r)
  /\ (preserve_hierarchy self = false
      \/ PyStr.startswith PosixPath.sep (parent_path r) = false ->
      exists mid,
        (mid = ""%string \/ mid = "/"%string)
        /\ export_file_path self r output_dir
           = (output_dir ++ mid ++ summary_path self r)%string)
  /\ (preserve_hierarchy self = true ->
      PyStr.startswith PosixPath.sep (parent_path r) = true ->
      export_file_path self r output_dir = get_full_path r).
Proof.
  split; [apply export_file_path_join |].
  split; [apply export_file_path_relative |].
  intros Hp Habs. rewrite export_file_path_join. unfold summary_path.
  rewrite Hp. apply join_absolute. by rewrite get_full_path_startswith.
Qed.

Lemma iter_self e : In e (iter e).
Proof. destruct e. simpl. auto. Qed.

Lemma iter_child e c d : In c (children e) -> In d (iter c) -> In d (iter e).
Proof.
  destruct e as [t a x cs]. cbn [children iter]. intros Hc Hd.
  right. apply in_flat_map. eauto.
Qed.

Lemma iter_trans root :
  forall e d, In e (iter root) -> In d (iter e) -> In d (iter root).
Proof.
  induction root as [t a x cs IH] using Element_ind'; intros e d He Hd.
  cbn [iter] in He. destruct He as [<- | He]; [done |].
  apply in_flat_map in He as (c & Hc & He).
  rewrite List.Forall_forall in IH.
  apply (iter_child _ c); [done |]. by apply (IH c Hc e).
Qed.

Lemma Visit_in_tree root p0 ancestors e p :
  Visit root p0 ancestors e p ->
  In e (iter root) /\ Forall (fun a => In a (iter root)) ancestors.
Proof.
  induction 1 as [| ancestors e p child _ [IHe IHa] Hchild].
  - split; [apply iter_self | apply List.Forall_nil].
  - split.
    + apply (iter_trans root e); [done |].
      apply (iter_child e child); [done | apply iter_self].
    + apply Forall_app. split; [done |].
      apply List.Forall_cons; [done | apply List.Forall_nil].
Qed.

Lemma join_all_relative names :
  forall p,
    PyStr.startswith PosixPath.sep p = false ->
    Forall (fun n => PyStr.startswith PosixPath.sep n = false) names ->
    PyStr.startswith PosixPath.sep (join_all p names) = false.
Proof.
  induction names as [| n names IH]; intros p Hp Hn; [done |].
  apply Forall_cons in Hn as [Hn Hnames].
  cbn [join_all fold_left]. apply IH; [| done].
  destruct (PyStr.truthy p) eqn:Ht; [| done].
  rewrite join_startswith; [done | by apply truthy_nonempty | done].
Qed.

(** X8: when no element of the tree resolves to a name starting with the
    separator, no record of the walk has a parent path starting with it,
    and so every script is written below the output directory: the path
    written to is the output directory, at most one separator, and the
    path listed in the summary. *)
Theorem walk_exports_below_output_dir
    (root : Element)
    (Hnames : Forall (fun e => PyStr.startswith PosixPath.sep
                                 (_get_element_name e) = false)
                     (iter root))
    (r : RobloxScript) (Hr : In r (walk root)) :
  PyStr.startswith PosixPath.sep (parent_path r) = false
  /\ forall self output_dir,
       exists mid,
         (mid = ""%string \/ mid = "/"%string)
         /\ export_file_path self r output_dir
            = (output_dir ++ mid ++ summary_path self r)%string.
Proof.
  assert (Hrel : PyStr.startswith PosixPath.sep (parent_path r) = false).
  { destruct (record_parent_path root r Hr) as (ancestors & e & Hv & _ & ->).
    apply join_all_relative; [done |].
    apply Visit_in_tree in Hv as [_ Ha].
    rewrite List.Forall_forall in Ha, Hnames.
    apply List.Forall_forall. intros n Hn.
    apply in_map_iff in Hn as (a & <- & Hin).
    apply filter_In in Hin as [Hin _]. auto. }
  split; [done |]. intros self output_dir.
  apply export_file_path_relative. auto.
Qed.

(** ** Where records come from *)

Lemma record_origin root r :
  In r (walk root) ->
  exists e p,
    In e (script_elements root)
    /\ _extract_script e (class_of e) p = Some r.
Proof.
  intros Hr.
  destruct (walk_record_visited root _ _ Hr) as (ancestors & e & p & Hv & Hown).
  destruct (own_record_inv _ _ _ Hown) as [Hk Hex].
  exists e, p. split; [| done].
  apply filter_In. split; [| done]. by apply Visit_in_tree in Hv as [He _].
Qed.

Lemma own_record_length e p :
  List.length (own_record e p)
  <= if is_script_class (class_of e) then 1 else 0.
Proof.
  unfold own_record, append_own. fold (class_of e).
  destruct (is_script_class (class_of e)); [| simpl; lia].
  destruct (_extract_script e (class_of e) p); simpl; lia.
Qed.

Lemma own_records_length (vs : list (Element * string)) :
  List.length (flat_map (fun v => own_record (fst v) (snd v)) vs)
  <= List.length
       (List.filter (fun e => is_script_class (class_of e)) (map fst vs)).
Proof.
  induction vs as [| [e p] vs IH]; [done |].
  cbn [flat_map map List.filter fst snd]. rewrite length_app.
  pose proof (own_record_length e p) as He.
  destruct (is_script_class (class_of e)); cbn [List.length]; lia.
Qed.

(** X9: records come from elements of script kind only, at most one from
    each. The walk has no more records than the tree has elements whose
    class is one of the three kinds, and none when there is no such
    element; every record carries the class and the looked-up source of
    such an element. *)
Theorem walk_bounded_by_script_elements (root : Element) :
  List.length (walk root) <= List.length (script_elements root)
  /\ (script_elements root = [] -> walk root = [])
  /\ (forall r,
         In r (walk root) ->
         exists e,
           In e (script_elements root)
           /\ script_type r = class_of e
           /\ source r = find_source e).
Proof.
  assert (Hlen : List.length (walk root)
                 <= List.length (script_elements root)).
  { unfold walk, script_elements.
    rewrite walk_visits, <- (visits_iter root ""). apply own_records_length. }
  split; [done |]. split.
  - intros Hnone. rewrite Hnone in Hlen.
    destruct (walk root); [done | simpl in Hlen; lia].
  - intros r Hr. destruct (record_origin root r Hr) as (e & p & He & Hex).
    destruct (extract_script_fields _ _ _ _ Hex) as (Hs & Hk & _).
    by exists e.
Qed.

Lemma extract_script_name e k p r :
  _extract_script e k p = Some r ->
  name r = if PyStr.truthy (_get_element_name e) then _get_element_name e
           else ("unnamed_" ++ PyStr.lower k)%string.
Proof.
  unfold _extract_script.
  destruct (PyStr.truthy (PyStr.strip (find_source e))); [| done].
  intros [= <-]. cbn [name].
  by destruct (PyStr.truthy (_get_element_name e)).
Qed.

(** X10: no record has an empty name. The name is the resolved name of the
    element when that is non-empty; otherwise it is "unnamed_script",
    "unnamed_localscript" or "unnamed_modulescript", by the kind of the
    record. *)
Theorem record_name_nonempty (root : Element) (r : RobloxScript)
    (Hr : In r (walk root)) :
  name r <> ""%string
  /\ exists e,
       In e (script_elements root)
       /\ ((_get_element_name e <> ""%string
            /\ name r = _get_element_name e)
           \/ (_get_element_name e = ""%string
               /\ ((script_type r = "Script"%string
                    /\ name r = "unnamed_script"%string)
                   \/ (script_type r = "LocalScript"%string
                       /\ name r = "unnamed_localscript"%string)
                   \/ (script_type r = "ModuleScript"%string
                       /\ name r = "unnamed_modulescript"%string)))).
Proof.
  destruct (record_origin root r Hr) as (e & p & He & Hex).
  pose proof (extract_script_name _ _ _ _ Hex) as Hn.
  destruct (extract_script_fields _ _ _ _ Hex) as (_ & Hk & _).
  pose proof He as Hclass. apply filter_In in Hclass as [_ Hclass].
  destruct (PyStr.truthy (_get_element_name e)) eqn:Ht.
  - apply truthy_nonempty in Ht. split; [congruence |].
    exists e. split; [done |]. by left.
  - apply truthy_empty in Ht.
    assert ((script_type r = "Script"%string
             /\ name r = "unnamed_script"%string)
            \/ (script_type r = "LocalScript"%string
                /\ name r = "unnamed_localscript"%string)
            \/ (script_type r = "ModuleScript"%string
                /\ name r = "unnamed_modulescript"%string)) as Hcases.
    { rewrite Hk, Hn.
      destruct (is_script_class_cases _ Hclass) as [-> | [-> | ->]];
        [left | right; left | right; right]; by split. }
    split.
    + destruct Hcases as [[_ ->] | [[_ ->] | [_ ->]]]; discriminate.
    + exists e. split; [done |]. by right.
Qed.

Lemma findall_descendant_first name g rest t a x :
  tag g = name ->
  findall_descendant name (mkElement t a x (g :: rest))
  = g :: List.filter (fun d => String.eqb (tag d) name)
           (descendants g ++ flat_map iter rest).
Proof.
  intros Hg. unfold findall_descendant, descendants.
  cbn [children flat_map]. destruct g as [tg ag xg csg].
  cbn [iter children app List.filter]. cbn [tag] in Hg.
  cbn [tag]. rewrite Hg, String.eqb_refl. reflexivity.
Qed.

(** X11: an element whose first child is a Properties grouping resolves to
    the text of the first child of that grouping with the name attribute
    "Name" (the empty text when that child has none), whatever the tag of
    that child and whatever lies further down the tree. *)
Theorem own_name_entry_first
    (e g c : Element) (rest pre post : list Element)
    (Hchildren : children e = g :: rest)
    (Hg : tag g = "Properties"%string)
    (Hentries : children g = pre ++ c :: post)
    (Hpre : Forall (fun child => get child "name" <> Some "Name"%string) pre)
    (Hc : get c "name" = Some "Name"%string) :
  _get_element_name e = PyStr.or_empty (text c).
Proof.
  destruct e as [t a x cs]. cbn [children] in Hchildren. subst cs.
  unfold _get_element_name.
  rewrite (findall_descendant_first _ g rest t a x Hg).
  cbn [name_in_properties].
  by rewrite (first_named_found _ _ pre c post Hentries Hpre Hc).
Qed.

(** ** The dicts of the summary *)

Lemma first_occurrences_In l k : In k (first_occurrences l) <-> In k l.
Proof.
  induction l as [| x l IH]; [done |]. cbn [first_occurrences In].
  rewrite filter_In, IH, negb_true_iff, String.eqb_neq.
  destruct (String.eqb_spec x k); intuition.
Qed.

Lemma first_occurrences_NoDup l : List.NoDup (first_occurrences l).
Proof.
  induction l as [| x l IH]; cbn [first_occurrences]; constructor.
  - rewrite filter_In, negb_true_iff, String.eqb_neq.
    by intros [_ Hx].
  - by apply List.NoDup_filter.
Qed.

Lemma first_occurrences_snoc l x :
  first_occurrences (l ++ [x])
  = if existsb (String.eqb x) l then first_occurrences l
    else first_occurrences l ++ [x].
Proof.
  induction l as [| y l IH]; [done |].
  cbn [app first_occurrences existsb]. rewrite IH.
  destruct (String.eqb_spec x y) as [-> | Hne]; cbn [orb].
  - destruct (existsb (String.eqb y) l); [done |].
    rewrite List.filter_app. cbn [List.filter].
    by rewrite String.eqb_refl, app_nil_r.
  - destruct (existsb (String.eqb x) l); [done |].
    rewrite List.filter_app. cbn [List.filter].
    assert (String.eqb y x = false) as -> by (apply String.eqb_neq; congruence).
    done.
Qed.

Lemma existsb_eqb_In x l : existsb (String.eqb x) l = true <-> In x l.
Proof.
  rewrite existsb_exists. split.
  - by intros (y & Hy & ->%String.eqb_eq).
  - intros Hx. exists x. by rewrite String.eqb_refl.
Qed.

Lemma existsb_eqb_not_In x l : existsb (String.eqb x) l = false <-> ~ In x l.
Proof.
  rewrite <- existsb_eqb_In. by destruct (existsb (String.eqb x) l).
Qed.

Section Tabulated.

Context {V : Type}.

Lemma lookup_tab_in (f : string -> V) keys k :
  In k keys -> PyDict.lookup k (map (fun k' => (k', f k')) keys) = Some (f k).
Proof.
  induction keys as [| x keys IH]; [done |]. cbn [map PyDict.lookup].
  destruct (String.eqb_spec x k) as [-> | Hne]; [done |].
  intros [Hx | Hk]; [done | by apply IH].
Qed.

Lemma lookup_tab_notin (f : string -> V) keys k :
  ~ In k keys -> PyDict.lookup k (map (fun k' => (k', f k')) keys) = None.
Proof.
  induction keys as [| x keys IH]; [done |]. cbn [map PyDict.lookup In].
  intros Hk. destruct (String.eqb_spec x k) as [-> | Hne]; [tauto |].
  apply IH. tauto.
Qed.

Lemma set_tab_in (f : string -> V) keys k v :
  List.NoDup keys ->
  In k keys ->
  PyDict.set k v (map (fun k' => (k', f k')) keys)
  = map (fun k' => (k', if String.eqb k' k then v else f k')) keys.
Proof.
  induction 1 as [| x keys Hx _ IH]; [done |]. cbn [map PyDict.set].
  destruct (String.eqb_spec x k) as [-> | Hne].
  - intros _. f_equal. apply map_ext_in. intros k' Hk'.
    destruct (String.eqb_spec k' k) as [-> | _]; [done | done].
  - intros [Hxk | Hk]; [done |]. f_equal. by apply IH.
Qed.

Lemma set_tab_notin (f : string -> V) keys k v :
  ~ In k keys ->
  PyDict.set k v (map (fun k' => (k', f k')) keys)
  = map (fun k' => (k', f k')) keys ++ [(k, v)].
Proof.
  induction keys as [| x keys IH]; [done |]. cbn [map PyDict.set In app].
  intros Hk. destruct (String.eqb_spec x k) as [-> | Hne]; [tauto |].
  f_equal. apply IH. tauto.
Qed.

Variable upd : option V -> RobloxScript -> V.
Variable val : list RobloxScript -> string -> V.

Hypothesis val_snoc :
  forall l s k,
    val (l ++ [s]) k
    = if String.eqb (script_type s) k
      then upd (if existsb (String.eqb k) (map script_type l)
                then Some (val l k) else None) s
      else val l k.

Lemma fold_tabulated l :
  fold_left
    (fun d s =>
       PyDict.set (script_type s) (upd (PyDict.lookup (script_type s) d) s) d)
    l []
  = map (fun k => (k, val l k)) (first_occurrences (map script_type l)).
Proof.
  induction l as [| s l IH] using rev_ind; [done |].
  rewrite fold_left_app. cbn [fold_left]. rewrite IH.
  rewrite map_app. cbn [map]. rewrite first_occurrences_snoc.
  set (t := script_type s). set (keys := first_occurrences (map script_type l)).
  destruct (existsb (String.eqb t) (map script_type l)) eqn:Hin.
  - assert (In t keys) as Hkeys.
    { by apply first_occurrences_In, existsb_eqb_In. }
    rewrite lookup_tab_in by done.
    rewrite set_tab_in by (done || apply first_occurrences_NoDup).
    apply map_ext. intros k. rewrite val_snoc. fold t.
    destruct (String.eqb_spec k t) as [-> | Hne].
    + by rewrite String.eqb_refl, Hin.
    + assert (String.eqb t k = false) as ->
          by (apply String.eqb_neq; congruence).
      done.
  - assert (~ In t keys) as Hkeys.
    { unfold keys. rewrite first_occurrences_In.
      by apply existsb_eqb_not_In. }
    rewrite lookup_tab_notin by done. rewrite set_tab_notin by done.
    rewrite map_app. cbn [map]. f_equal.
    + apply map_ext_in. intros k Hk. rewrite val_snoc. fold t.
      assert (String.eqb t k = false) as ->
          by (apply String.eqb_neq; congruence).
      done.
    + rewrite val_snoc. fold t. by rewrite String.eqb_refl, Hin.
Qed.

End Tabulated.

Lemma get_scripts_by_type_absent l k :
  ~ In k (map script_type l) -> get_scripts_by_type l k = [].
Proof.
  induction l as [| s l IH]; [done |]. cbn [map In].
  intros Hk. unfold get_scripts_by_type in *. cbn [List.filter].
  destruct (String.eqb_spec (script_type s) k) as [He | _]; [tauto |].
  apply IH. tauto.
Qed.

Lemma get_scripts_by_type_snoc l s k :
  get_scripts_by_type (l ++ [s]) k
  = get_scripts_by_type l k
    ++ (if String.eqb (script_type s) k then [s] else []).
Proof. unfold get_scripts_by_type. by rewrite List.filter_app. Qed.

Lemma summary_counts_tabulated scripts :
  summary_counts scripts
  = map (fun k => (k, List.length (get_scripts_by_type scripts k)))
        (first_occurrences (map script_type scripts)).
Proof.
  unfold summary_counts.
  apply (fold_tabulated
           (fun o _ => match o with Some n => n | None => 0 end + 1)
           (fun l k => List.length (get_scripts_by_type l k))).
  intros l s k. rewrite get_scripts_by_type_snoc, length_app.
  destruct (String.eqb (script_type s) k); [| simpl; lia].
  destruct (existsb (String.eqb k) (map script_type l)) eqn:Hin; [done |].
  apply existsb_eqb_not_In in Hin.
  by rewrite (get_scripts_by_type_absent l k Hin).
Qed.

Lemma pydict_lookup_set_eq {V} k (v : V) d :
  PyDict.lookup k (PyDict.set k v d) = Some v.
Proof.
  induction d as [| [k' v'] d IH]; cbn [PyDict.set PyDict.lookup].
  - by rewrite String.eqb_refl.
  - destruct (String.eqb k' k) eqn:He; cbn [PyDict.lookup]; by rewrite He.
Qed.

Lemma pydict_set_set_eq {V} k (v v' : V) d :
  PyDict.set k v' (PyDict.set k v d) = PyDict.set k v' d.
Proof.
  induction d as [| [k0 v0] d IH]; cbn [PyDict.set].
  - by rewrite String.eqb_refl.
  - destruct (String.eqb k0 k) eqn:He; cbn [PyDict.set]; rewrite He;
      [done | by rewrite IH].
Qed.

Lemma fold_left_pointwise {A B} (f g : A -> B -> A) l :
  (forall a b, f a b = g a b) ->
  forall a, fold_left f l a = fold_left g l a.
Proof.
  intros Hfg. induction l as [| b l IH]; intros a; [done |].
  simpl. by rewrite Hfg, IH.
Qed.

Lemma summary_groups_tabulated scripts :
  summary_groups scripts
  = map (fun k => (k, get_scripts_by_type scripts k))
        (first_occurrences (map script_type scripts)).
Proof.
  unfold summary_groups.
  rewrite <- (fold_tabulated
                (fun o s => match o with Some g => g | None => [] end ++ [s])
                (fun l k => get_scripts_by_type l k)).
  - apply fold_left_pointwise. intros d s. unfold PyDict.mem.
    destruct (PyDict.lookup (script_type s) d) as [g |] eqn:Hd; cbn [negb].
    + by rewrite Hd.
    + by rewrite pydict_lookup_set_eq, pydict_set_set_eq.
  - intros l s k. rewrite get_scripts_by_type_snoc.
    destruct (String.eqb (script_type s) k); [| by rewrite app_nil_r].
    destruct (existsb (String.eqb k) (map script_type l)) eqn:Hin; [done |].
    apply existsb_eqb_not_In in Hin.
    by rewrite (get_scripts_by_type_absent l k Hin).
Qed.

Lemma flat_map_insert {A} (g : string -> list A) (s : A) t keys :
  List.NoDup keys ->
  In t keys ->
  Permutation
    (flat_map (fun k => if String.eqb t k then s :: g k else g k) keys)
    (s :: flat_map g keys).
Proof.
  induction 1 as [| k keys Hk _ IH]; [done |]. cbn [flat_map].
  destruct (String.eqb_spec t k) as [-> | Hne].
  - intros _. cbn [app]. apply Permutation_cons; [done |].
    apply Permutation_app_head.
    rewrite (flat_map_ext_Forall _ g); [done |].
    apply List.Forall_forall. intros k' Hk'.
    destruct (String.eqb_spec k k') as [-> | _]; [done | done].
  - intros [Hkt | Ht]; [congruence |].
    rewrite (IH Ht). apply Permutation_sym, Permutation_middle.
Qed.

Lemma groups_permutation keys l :
  List.NoDup keys ->
  (forall s, In s l -> In (script_type s) keys) ->
  Permutation (flat_map (fun k => get_scripts_by_type l k) keys) l.
Proof.
  intros Hnd. induction l as [| s l IH]; intros Hcover.
  - induction keys as [| k keys IHk]; [done |].
    cbn [flat_map]. apply IHk; [by inversion Hnd | by intros ? []].
  - rewrite (flat_map_ext_Forall _
               (fun k => if String.eqb (script_type s) k
                         then s :: get_scripts_by_type l k
                         else get_scripts_by_type l k)).
    + rewrite (flat_map_insert _ s (script_type s) keys Hnd);
        [| apply Hcover; by left].
      apply Permutation_cons; [done |]. apply IH.
      intros s' Hs'. apply Hcover. by right.
    + apply List.Forall_forall. intros k _.
      unfold get_scripts_by_type. cbn [List.filter].
      by destruct (String.eqb (script_type s) k).
Qed.

Lemma summary_keys_permutation scripts :
  Permutation
    (flat_map (fun k => get_scripts_by_type scripts k)
              (first_occurrences (map script_type scripts)))
    scripts.
Proof.
  apply groups_permutation; [apply first_occurrences_NoDup |].
  intros s Hs. apply first_occurrences_In, in_map_iff. eauto.
Qed.

Lemma get_scripts_by_type_present l k :
  In k (map script_type l) -> get_scripts_by_type l k <> [].
Proof.
  intros (s & <- & Hs)%in_map_iff Hnil.
  assert (In s (get_scripts_by_type l (script_type s))) as Hin.
  { apply filter_In. split; [done | apply String.eqb_refl]. }
  by rewrite Hnil in Hin.
Qed.

Lemma list_sum_lengths {A B} (f : A -> list B) keys :
  list_sum (map (fun k => List.length (f k)) keys)
  = List.length (flat_map f keys).
Proof.
  induction keys as [| k keys IH]; [done |].
  simpl. rewrite length_app. simpl in IH. by rewrite IH.
Qed.

Lemma initial_counts_kind k :
  is_script_class k = true -> initial_counts !! k = Some 0.
Proof.
  intros Hk. by destruct (is_script_class_cases k Hk) as [-> | [-> | ->]].
Qed.

(** X12: the counts of the summary. The dict [counts] lists the kinds that
    occur among the scripts, each once, in the order of their first
    occurrence, each with the number of scripts of that kind. Every count
    is at least one and the counts sum to the number of scripts, whatever
    the kinds are; for the three script kinds a count agrees with
    [get_script_count], which reports zero for a kind that does not
    occur. *)
Theorem summary_counts_spec (records : list RobloxScript) :
  summary_counts records
  = map (fun k => (k, List.length (get_scripts_by_type records k)))
        (first_occurrences (map script_type records))
  /\ list_sum (map snd (summary_counts records)) = List.length records
  /\ (forall k n, In (k, n) (summary_counts records) -> 1 <= n)
  /\ (forall k,
         is_script_class k = true ->
         get_script_count records !! k
         = Some (match PyDict.lookup k (summary_counts records) with
                 | Some n => n
                 | None => 0
                 end)).
Proof.
  rewrite summary_counts_tabulated.
  split; [done |]. split; [| split].
  - rewrite map_map. cbn [snd].
    rewrite (list_sum_lengths (fun k => get_scripts_by_type records k)).
    apply Permutation_length, summary_keys_permutation.
  - intros k n (k' & [= <- <-] & Hk)%in_map_iff.
    apply first_occurrences_In, get_scripts_by_type_present in Hk.
    destruct (get_scripts_by_type records k'); [done | simpl; lia].
  - intros k Hk. unfold get_script_count.
    rewrite count_scripts_lookup, (initial_counts_kind k Hk).
    cbn [fmap option_fmap option_map]. f_equal.
    destruct (in_dec string_dec k
                (first_occurrences (map script_type records))) as [Hin | Hout].
    + by rewrite (lookup_tab_in _ _ _ Hin).
    + rewrite (lookup_tab_notin _ _ _ Hout).
      rewrite first_occurrences_In in Hout.
      by rewrite (get_scripts_by_type_absent _ _ Hout).
Qed.

(** X13: the groups of the summary. The dict [by_type] has the same keys
    in the same order as [counts]; the group of a kind is the scripts of
    that kind in their original order. No group is empty, and the groups
    together list every script exactly once. *)
Theorem summary_groups_spec (records : list RobloxScript) :
  summary_groups records
  = map (fun k => (k, get_scripts_by_type records k))
        (first_occurrences (map script_type records))
  /\ map fst (summary_groups records) = map fst (summary_counts records)
  /\ (forall k g,
         In (k, g) (summary_groups records) ->
         g <> [] /\ Forall (fun s => script_type s = k) g)
  /\ Permutation (List.concat (map snd (summary_groups records))) records.
Proof.
  rewrite summary_groups_tabulated, summary_counts_tabulated.
  split; [done |]. split; [| split].
  - by rewrite !map_map.
  - intros k g (k' & [= <- <-] & Hk)%in_map_iff. split.
    + by apply get_scripts_by_type_present, first_occurrences_In.
    + apply List.Forall_forall. intros s Hs.
      apply filter_In in Hs as [_ Hs]. by apply String.eqb_eq.
  - rewrite map_map. cbn [snd]. rewrite <- flat_map_concat_map.
    apply summary_keys_permutation.
Qed.

(** ** Headers and file contents *)

Local Open Scope string_scope.

Lemma split_lines_aux_spec s :
  forall cur,
    split_lines_aux cur s
    = (PyStr.rev_string cur ++ List.hd "" (split_lines s))
        :: List.tl (split_lines s).
Proof.
  unfold split_lines.
  induction s as [| c s IH]; intros cur; cbn [split_lines_aux].
  - cbn [List.hd List.tl PyStr.rev_string]. by rewrite append_nil_r.
  - destruct (Ascii.eqb c "010").
    + cbn [List.hd List.tl PyStr.rev_string]. by rewrite append_nil_r.
    + rewrite (IH (String c cur)), (IH (String c "")).
      cbn [List.hd List.tl PyStr.rev_string].
      by rewrite append_nil_l, append_assoc.
Qed.

Lemma split_lines_cons c s :
  split_lines (String c s)
  = if Ascii.eqb c "010" then "" :: split_lines s
    else String c (List.hd "" (split_lines s)) :: List.tl (split_lines s).
Proof.
  unfold split_lines at 1. cbn [split_lines_aux].
  destruct (Ascii.eqb c "010"); [done |].
  by rewrite split_lines_aux_spec.
Qed.

Lemma split_lines_nonempty s : split_lines s <> nil.
Proof.
  destruct s as [| c s]; [done |]. rewrite split_lines_cons.
  by destruct (Ascii.eqb c "010").
Qed.

Lemma split_lines_app a b :
  split_lines (a ++ newline ++ b) = (split_lines a ++ split_lines b)%list.
Proof.
  induction a as [| c a IH].
  - rewrite append_nil_l. unfold newline. rewrite append_cons_l, append_nil_l.
    by rewrite split_lines_cons.
  - rewrite append_cons_l, !split_lines_cons, IH.
    destruct (Ascii.eqb c "010"); [done |].
    pose proof (split_lines_nonempty a) as Hne.
    by destruct (split_lines a).
Qed.

Lemma split_lines_one_line s : one_line s = true -> split_lines s = [s].
Proof.
  induction s as [| c s IH]; [done |]. cbn [one_line].
  intros [Hc Hs]%andb_true_iff. apply negb_true_iff in Hc.
  by rewrite split_lines_cons, Hc, (IH Hs).
Qed.

Lemma concat_cons sep x y ys :
  String.concat sep (x :: y :: ys) = x ++ sep ++ String.concat sep (y :: ys).
Proof. reflexivity. Qed.

Lemma split_lines_concat ls :
  ls <> nil ->
  Forall (fun l => one_line l = true) ls ->
  split_lines (String.concat newline ls) = ls.
Proof.
  induction ls as [| x [| y ys] IH]; [done | |]; intros _ Hall.
  - apply Forall_cons in Hall as [Hx _]. by apply split_lines_one_line.
  - apply Forall_cons in Hall as [Hx Hrest].
    rewrite concat_cons, split_lines_app, (split_lines_one_line x Hx).
    by rewrite IH.
Qed.

Lemma concat_split_lines s : String.concat newline (split_lines s) = s.
Proof.
  induction s as [| c s IH]; [done |]. rewrite split_lines_cons.
  pose proof (split_lines_nonempty s) as Hne.
  destruct (split_lines s) as [| h t] eqn:Hs; [done |].
  destruct (Ascii.eqb_spec c "010") as [-> | _].
  - rewrite concat_cons, IH. reflexivity.
  - cbn [List.hd List.tl]. destruct t as [| y ys].
    + cbn [String.concat] in *. by rewrite IH.
    + rewrite concat_cons, append_cons_l. by rewrite <- concat_cons, IH.
Qed.

Lemma one_line_app a b : one_line (a ++ b) = one_line a && one_line b.
Proof.
  induction a as [| c a IH]; [done |].
  rewrite append_cons_l. cbn [one_line]. by rewrite IH, andb_assoc.
Qed.

Lemma header_lines_one_line r :
  one_line (name r) = true ->
  one_line (script_type r) = true ->
  one_line (parent_path r) = true ->
  Forall (fun l => one_line l = true) (header_lines r).
Proof.
  intros Hn Hk Hp. unfold header_lines.
  apply Forall_app. split; [| apply Forall_app; split].
  - repeat (apply List.Forall_cons;
            [rewrite ?one_line_app, ?Hn, ?Hk; reflexivity |]).
    apply List.Forall_nil.
  - destruct (PyStr.truthy (parent_path r)); [| apply List.Forall_nil].
    apply List.Forall_cons; [| apply List.Forall_nil].
    by rewrite one_line_app, Hp.
  - repeat (apply List.Forall_cons; [reflexivity |]). apply List.Forall_nil.
Qed.

Local Open Scope list_scope.

(** X14: for a script whose name, kind and parent path hold no line feed,
    the header is a block of comment lines: split at line feeds it is
    exactly the list of header lines, which is five lines (six with a
    parent path) that each begin with "-- ", followed by one empty line. *)
Theorem generate_header_comment_block
    (r : RobloxScript)
    (Hname : one_line (name r) = true)
    (Hkind : one_line (script_type r) = true)
    (Hpath : one_line (parent_path r) = true) :
  split_lines (_generate_header r) = header_lines r
  /\ exists body,
       header_lines r = body ++ [""%string]
       /\ Forall (fun l => PyStr.startswith "-- " l = true) body
       /\ List.length body = if PyStr.truthy (parent_path r) then 6 else 5.
Proof.
  split.
  - unfold _generate_header. apply split_lines_concat.
    + unfold header_lines. discriminate.
    + by apply header_lines_one_line.
  - assert (Hc : forall t, PyStr.startswith "-- " ("-- " ++ t)%string = true).
    { intros t. apply startswith_spec. by exists t. }
    unfold header_lines. destruct (PyStr.truthy (parent_path r)).
    + exists [("-- " ++ repeat_string "=" 50)%string;
              ("-- Script Name: " ++ name r)%string;
              ("-- Script Type: " ++ script_type r)%string;
              ("-- Parent Path: " ++ parent_path r)%string;
              "-- Exported by RoExport"%string;
              ("-- " ++ repeat_string "=" 50)%string].
      split; [reflexivity |]. split; [| reflexivity].
      repeat (apply List.Forall_cons; [apply Hc |]). apply List.Forall_nil.
    + exists [("-- " ++ repeat_string "=" 50)%string;
              ("-- Script Name: " ++ name r)%string;
              ("-- Script Type: " ++ script_type r)%string;
              "-- Exported by RoExport"%string;
              ("-- " ++ repeat_string "=" 50)%string].
      split; [reflexivity |]. split; [| reflexivity].
      repeat (apply List.Forall_cons; [apply Hc |]). apply List.Forall_nil.
Qed.

(** X15: the content written for a script ends with its source, unchanged.
    Without headers the content is the source. With headers it is the
    header, a line feed and the source; when the name, kind and parent
    path hold no line feed, its lines are the header lines followed by the
    lines of the source, so that dropping as many lines as the header has
    and joining the rest gives the source back. *)
Theorem prepare_content_keeps_source
    (self : RobloxExporter) (r : RobloxScript) :
  (add_headers self = false -> _prepare_content self r = source r)
  /\ (add_headers self = true ->
      _prepare_content self r
      = (_generate_header r ++ newline ++ source r)%string)
  /\ PyStr.endswith (source r) (_prepare_content self r) = true
  /\ (add_headers self = true ->
      one_line (name r) = true ->
      one_line (script_type r) = true ->
      one_line (parent_path r) = true ->
      split_lines (_prepare_content self r)
      = header_lines r ++ split_lines (source r)
      /\ String.concat newline
           (skipn (List.length (header_lines r))
                  (split_lines (_prepare_content self r)))
         = source r).
Proof.
  assert (Hoff : add_headers self = false ->
                 _prepare_content self r = source r).
  { intros H. unfold _prepare_content. by rewrite H. }
  assert (Hon : add_headers self = true ->
                _prepare_content self r
                = (_generate_header r ++ newline ++ source r)%string).
  { intros H. unfold _prepare_content. by rewrite H. }
  split; [done |]. split; [done |]. split.
  - apply endswith_spec. destruct (add_headers self) eqn:Hh.
    + exists (_generate_header r ++ newline)%string.
      by rewrite (Hon eq_refl), append_assoc.
    + exists ""%string. by rewrite (Hoff eq_refl).
  - intros Hh Hn Hk Hp.
    assert (Hlines : split_lines (_prepare_content self r)
                     = header_lines r ++ split_lines (source r)).
    { rewrite (Hon Hh), split_lines_app. f_equal.
      unfold _generate_header. apply split_lines_concat.
      - unfold header_lines. discriminate.
      - by apply header_lines_one_line. }
    split; [done |].
    rewrite Hlines, skipn_app, skipn_all, Nat.sub_diag.
    cbn [skipn app]. apply concat_split_lines.
Qed.

(** ** Grouping the records of a walk *)

(** X16: the three groups [get_scripts_by_type] gives for the records of a
    walk partition them: together they list every record exactly once,
    and asking for any other kind gives the empty list. *)
Theorem get_scripts_by_type_partition (root : Element) :
  Permutation
    (get_scripts_by_type (walk root) "Script"
       ++ get_scripts_by_type (walk root) "LocalScript"
       ++ get_scripts_by_type (walk root) "ModuleScript")
    (walk root)
  /\ (forall k,
         is_script_class k = false -> get_scripts_by_type (walk root) k = []).
Proof.
  pose proof (walk_kinds root) as Hkinds.
  rewrite List.Forall_forall in Hkinds. split.
  - pose proof (groups_permutation
                  ["Script"%string; "LocalScript"%string;
                   "ModuleScript"%string]
                  (walk root)) as Hperm.
    cbn [flat_map] in Hperm. rewrite app_nil_r in Hperm. apply Hperm.
    + repeat constructor; simpl; intuition discriminate.
    + intros s Hs.
      destruct (is_script_class_cases _ (Hkinds s Hs)) as [-> | [-> | ->]];
        simpl; auto.
  - intros k Hk. apply get_scripts_by_type_absent.
    intros (s & <- & Hs)%in_map_iff. rewrite (Hkinds s Hs) in Hk. discriminate.
Qed.

(** ** The default output directory *)

Local Open Scope string_scope.

Lemma has_roblox_extension_ending file_path :
  has_roblox_extension file_path = true ->
  exists stem ending,
    file_path = stem ++ ending
    /\ (PyStr.lower ending = ".rbxm" \/ PyStr.lower ending = ".rbxl").
Proof.
  unfold has_roblox_extension. rewrite orb_true_iff, !endswith_spec.
  intros [[t Ht] | [t Ht]]; apply lower_app_inv in Ht
    as (s1 & s2 & -> & _ & Hs2); exists s1, s2; auto.
Qed.

Lemma rfind_app_absent c a b :
  OsPath.rfind c b = None -> OsPath.rfind c (a ++ b) = OsPath.rfind c a.
Proof.
  intros Hb. induction a as [| d a IH]; [by rewrite append_nil_l |].
  rewrite append_cons_l. cbn [OsPath.rfind]. by rewrite IH.
Qed.

Lemma rfind_app_present c a b i :
  OsPath.rfind c b = Some i ->
  OsPath.rfind c (a ++ b) = Some (String.length a + i).
Proof.
  intros Hb. induction a as [| d a IH]; [by rewrite append_nil_l |].
  rewrite append_cons_l. cbn [OsPath.rfind String.length]. by rewrite IH.
Qed.

Lemma rfind_bound c s i : OsPath.rfind c s = Some i -> i < String.length s.
Proof.
  revert i. induction s as [| d s IH]; intros i; [done |].
  cbn [OsPath.rfind String.length].
  destruct (OsPath.rfind c s) as [j |].
  - intros [= <-]. specialize (IH j eq_refl). lia.
  - destruct (Ascii.eqb d c); [intros [= <-]; lia | done].
Qed.

Lemma drop_app n a b :
  n <= String.length a -> OsPath.drop n (a ++ b) = OsPath.drop n a ++ b.
Proof.
  revert a. induction n as [| n IH]; intros a Hn; [done |].
  destruct a as [| d a]; cbn [String.length] in Hn; [lia |].
  rewrite append_cons_l. cbn [OsPath.drop]. apply IH. lia.
Qed.

Lemma take_app_length a b : OsPath.take (String.length a) (a ++ b) = a.
Proof.
  induction a as [| d a IH]; [done |].
  rewrite append_cons_l. cbn [String.length OsPath.take]. by rewrite IH.
Qed.

Lemma drop_app_length a b : OsPath.drop (String.length a) (a ++ b) = b.
Proof.
  induction a as [| d a IH]; [done |].
  rewrite append_cons_l. cbn [String.length OsPath.drop]. by rewrite IH.
Qed.

Lemma basename_no_sep p : OsPath.rfind "/" (OsPath.basename p) = None.
Proof.
  unfold OsPath.basename. induction p as [| d p IH]; [done |].
  cbn [OsPath.rfind].
  destruct (OsPath.rfind "/" p) as [i |] eqn:Hp; cbn [OsPath.next_index].
  - cbn [OsPath.drop]. exact IH.
  - destruct (Ascii.eqb d "/") eqn:Hd; cbn [OsPath.next_index OsPath.drop].
    + exact Hp.
    + cbn [OsPath.rfind]. by rewrite Hp, Hd.
Qed.

Lemma basename_app a b :
  OsPath.rfind "/" b = None ->
  OsPath.basename (a ++ b) = OsPath.basename a ++ b.
Proof.
  intros Hb. unfold OsPath.basename. rewrite (rfind_app_absent _ a b Hb).
  apply drop_app. destruct (OsPath.rfind "/" a) as [i |] eqn:Ha.
  - apply rfind_bound in Ha. cbn [OsPath.next_index]. lia.
  - cbn [OsPath.next_index]. lia.
Qed.

Lemma splitext_stem_ending stem ending :
  OsPath.rfind "/" stem = None ->
  OsPath.rfind "/" ending = None ->
  OsPath.rfind "." ending = Some 0 ->
  OsPath.splitext (stem ++ ending)
  = if OsPath.all_dots stem then (stem ++ ending, "") else (stem, ending).
Proof.
  intros Hs He Hd. unfold OsPath.splitext.
  rewrite (rfind_app_absent _ stem ending He), Hs.
  rewrite (rfind_app_present _ stem ending 0 Hd).
  cbn [OsPath.next_index Nat.leb OsPath.drop].
  rewrite Nat.add_0_r, Nat.sub_0_r, take_app_length, drop_app_length.
  reflexivity.
Qed.

Lemma lower_char_fixes c x :
  PyStr.lower_char x = x ->
  Ascii.eqb c x = true -> PyStr.lower_char c = x.
Proof. intros Hx ->%Ascii.eqb_eq. exact Hx. Qed.

Lemma lower_ending_shape ending :
  PyStr.lower ending = ".rbxm" \/ PyStr.lower ending = ".rbxl" ->
  OsPath.rfind "/" ending = None /\ OsPath.rfind "." ending = Some 0.
Proof.
  assert (Hslash : forall c x,
             PyStr.lower_char c = x -> x <> "/"%char ->
             Ascii.eqb c "/" = false).
  { intros c x Hc Hx. destruct (Ascii.eqb c "/") eqn:He; [| done].
    apply (lower_char_fixes c "/" eq_refl) in He. congruence. }
  assert (Hdot : forall c x,
             PyStr.lower_char c = x -> x <> "."%char ->
             Ascii.eqb c "." = false).
  { intros c x Hc Hx. destruct (Ascii.eqb c ".") eqn:He; [| done].
    apply (lower_char_fixes c "." eq_refl) in He. congruence. }
  assert (Hfirst : forall c, PyStr.lower_char c = "."%char ->
                             Ascii.eqb c "." = true).
  { intros c Hc.
    destruct c as [[] [] [] [] [] [] [] []];
      vm_compute in Hc; try discriminate Hc; reflexivity. }
  destruct ending as [| c0 [| c1 [| c2 [| c3 [| c4 [| c5 rest]]]]]];
    cbn [PyStr.lower]; intros [H | H]; try discriminate H;
    injection H as H0 H1 H2 H3 H4;
    cbn [OsPath.rfind];
    rewrite (Hslash c4 _ H4), (Hslash c3 _ H3), (Hslash c2 _ H2),
      (Hslash c1 _ H1), (Hslash c0 _ H0) by discriminate;
    rewrite (Hdot c4 _ H4), (Hdot c3 _ H3), (Hdot c2 _ H2),
      (Hdot c1 _ H1) by discriminate;
    by rewrite (Hfirst c0 H0).
Qed.

Local Open Scope list_scope.

(** X17: the output directory of the command line. A non-empty output
    argument is used as it stands; an absent or empty one gives the
    default. For an input path with an accepted extension the default is
    the file name of the input without that extension, except when the
    part of the file name before the extension is empty or all dots: then
    the extension is not split off and the default is the whole file
    name. *)
Theorem output_directory_default
    (input : string) (Hext : has_roblox_extension input = true) :
  (exists stem ending,
      input = (stem ++ ending)%string
      /\ (PyStr.lower ending = ".rbxm"%string
          \/ PyStr.lower ending = ".rbxl"%string)
      /\ OsPath.basename input = (OsPath.basename stem ++ ending)%string
      /\ output_directory input None
         = if OsPath.all_dots (OsPath.basename stem)
           then (OsPath.basename stem ++ ending)%string
           else OsPath.basename stem)
  /\ (forall dir,
         dir <> ""%string -> output_directory input (Some dir) = dir)
  /\ output_directory input (Some ""%string) = output_directory input None.
Proof.
  split; [| split].
  - destruct (has_roblox_extension_ending input Hext)
      as (stem & ending & -> & Hending).
    destruct (lower_ending_shape ending Hending) as [Hsep Hdot].
    exists stem, ending. split; [done |]. split; [done |].
    assert (Hbase : OsPath.basename (stem ++ ending)
                    = (OsPath.basename stem ++ ending)%string)
      by by apply basename_app.
    split; [done |].
    unfold output_directory. rewrite Hbase.
    rewrite (splitext_stem_ending _ _ (basename_no_sep stem) Hsep Hdot).
    by destruct (OsPath.all_dots (OsPath.basename stem)).
  - intros dir Hdir%truthy_nonempty. unfold output_directory. by rewrite Hdir.
  - reflexivity.
Qed.

(** ** The further properties at concrete inputs *)

Lemma parse_file_outcomes_witness :
  let '(st', self', outcome) :=
    parse_file Instances.one_file "missing.rbxm" (mkStore ∅) (mkParser 0) in
  outcome = FileNotFoundError /\ st' = mkStore ∅ /\ self' = mkParser 0.
Proof.
  pose proof (parse_file_outcomes Instances.one_file "missing.rbxm"
                (mkStore ∅) (mkParser 0)) as H.
  destruct (parse_file Instances.one_file "missing.rbxm"
              (mkStore ∅) (mkParser 0)) as [[st' self'] outcome].
  destruct H as (_ & Hmissing & _ & Hkeep).
  assert (outcome = FileNotFoundError) as Ho
      by (apply Hmissing; reflexivity).
  split; [exact Ho |]. apply Hkeep. by left.
Defined.

Lemma validate_input_file_agrees_witness :
  let '(ok, printed) := validate_input_file Instances.one_file "model.rbxm" in
  let '(st', self', outcome) :=
    parse_file Instances.one_file "model.rbxm" (mkStore ∅) (mkParser 0) in
  ok = true /\ printed = [] /\ outcome <> FileNotFoundError.
Proof.
  pose proof (validate_input_file_agrees Instances.one_file "model.rbxm"
                (mkStore ∅) (mkParser 0)) as H.
  destruct (validate_input_file Instances.one_file "model.rbxm")
    as [ok printed].
  destruct (parse_file Instances.one_file "model.rbxm"
              (mkStore ∅) (mkParser 0)) as [[st' self'] outcome].
  destruct H as (Hok & Haccept & _).
  assert (ok = true) as Htrue.
  { apply Hok. exists (Parsed Examples.data_model).
    split; [reflexivity | vm_compute; reflexivity]. }
  split; [exact Htrue |].
  destruct (Haccept Htrue) as (Hp & Hn & _). split; [exact Hp | exact Hn].
Defined.

Lemma get_full_path_keeps_parent_witness :
  parent_path Instances.main_record <> ""%string
  /\ PyStr.endswith PosixPath.sep (parent_path Instances.main_record) = false
  /\ get_full_path Instances.main_record
     = (parent_path Instances.main_record ++ "/"
          ++ get_filename Instances.main_record)%string.
Proof.
  split; [discriminate |]. split; [vm_compute; reflexivity |].
  apply (proj1 (proj2 (get_full_path_keeps_parent Instances.main_record))).
  - discriminate.
  - vm_compute. reflexivity.
Defined.

Lemma export_file_path_cases_witness :
  preserve_hierarchy Samples.default_exporter = true
  /\ PyStr.startswith PosixPath.sep (parent_path Samples.absolute_record)
     = true
  /\ export_file_path Samples.default_exporter Samples.absolute_record "out"
     = get_full_path Samples.absolute_record.
Proof.
  split; [reflexivity |]. split; [vm_compute; reflexivity |].
  apply (proj2 (proj2 (export_file_path_cases
                         Samples.default_exporter Samples.absolute_record
                         "out"))).
  - reflexivity.
  - vm_compute. reflexivity.
Defined.

Lemma walk_exports_below_output_dir_witness :
  In Instances.main_record (walk Examples.data_model)
  /\ PyStr.startswith PosixPath.sep (parent_path Instances.main_record)
     = false
  /\ forall self output_dir,
       exists mid,
         (mid = ""%string \/ mid = "/"%string)
         /\ export_file_path self Instances.main_record output_dir
            = (output_dir ++ mid
                 ++ summary_path self Instances.main_record)%string.
Proof.
  split; [vm_compute; auto |].
  apply (walk_exports_below_output_dir Examples.data_model).
  - vm_compute. repeat (apply List.Forall_cons; [reflexivity |]).
    apply List.Forall_nil.
  - vm_compute. auto.
Defined.

Lemma walk_bounded_by_script_elements_witness :
  In Instances.main_record (walk Examples.data_model)
  /\ exists e,
       In e (script_elements Examples.data_model)
       /\ script_type Instances.main_record = class_of e
       /\ source Instances.main_record = find_source e.
Proof.
  split; [vm_compute; auto |].
  apply (proj2 (proj2 (walk_bounded_by_script_elements Examples.data_model))).
  vm_compute. auto.
Defined.

Lemma record_name_nonempty_witness :
  In Samples.unnamed_record (walk Examples.unnamed_module)
  /\ name Samples.unnamed_record <> ""%string.
Proof.
  split; [vm_compute; auto |].
  apply (record_name_nonempty Examples.unnamed_module Samples.unnamed_record).
  vm_compute. auto.
Defined.

Lemma own_name_entry_first_witness :
  get Samples.named_by_own_grouping "referent" = Some "R"%string
  /\ _get_element_name Samples.named_by_own_grouping = "X"%string.
Proof.
  split; [vm_compute; reflexivity |].
  apply (own_name_entry_first Samples.named_by_own_grouping
           Samples.content_name_grouping
           (Examples.leaf "Content" "Name" (Some "X"%string))
           [Examples.main_script]
           [Examples.leaf "bool" "Anchored" (Some "true"%string)]
           []).
  - reflexivity.
  - reflexivity.
  - reflexivity.
  - apply List.Forall_cons; [vm_compute; discriminate | apply List.Forall_nil].
  - vm_compute. reflexivity.
Defined.

Lemma summary_counts_spec_witness :
  In ("Script"%string, 1)
     (summary_counts [Instances.main_record; Instances.util_record])
  /\ 1 <= 1.
Proof.
  split; [vm_compute; auto |].
  apply (proj1 (proj2 (proj2
           (summary_counts_spec
              [Instances.main_record; Instances.util_record])))
           "Script"%string 1).
  vm_compute. auto.
Defined.

Lemma summary_groups_spec_witness :
  In ("ModuleScript"%string, [Instances.util_record])
     (summary_groups [Instances.main_record; Instances.util_record])
  /\ [Instances.util_record] <> []
  /\ Forall (fun s => script_type s = "ModuleScript"%string)
            [Instances.util_record].
Proof.
  split; [vm_compute; auto |].
  apply (proj1 (proj2 (proj2
           (summary_groups_spec
              [Instances.main_record; Instances.util_record])))
           "ModuleScript"%string [Instances.util_record]).
  vm_compute. auto.
Defined.

Lemma generate_header_comment_block_witness :
  split_lines (_generate_header Instances.main_record)
  = header_lines Instances.main_record
  /\ exists body,
       header_lines Instances.main_record = body ++ [""%string]
       /\ Forall (fun l => PyStr.startswith "-- " l = true) body
       /\ List.length body
          = if PyStr.truthy (parent_path Instances.main_record)
            then 6 else 5.
Proof.
  apply (generate_header_comment_block Instances.main_record);
    vm_compute; reflexivity.
Defined.

Lemma prepare_content_keeps_source_witness :
  add_headers Samples.flat_exporter = false
  /\ _prepare_content Samples.flat_exporter Instances.main_record
     = source Instances.main_record.
Proof.
  split; [reflexivity |].
  apply (proj1 (prepare_content_keeps_source
                  Samples.flat_exporter Instances.main_record)).
  reflexivity.
Defined.

Lemma get_scripts_by_type_partition_witness :
  is_script_class "Folder" = false
  /\ get_scripts_by_type (walk Examples.data_model) "Folder" = [].
Proof.
  split; [reflexivity |].
  apply (proj2 (get_scripts_by_type_partition Examples.data_model)).
  reflexivity.
Defined.

Lemma output_directory_default_witness :
  has_roblox_extension "games/Place.RbxL" = true
  /\ output_directory "games/Place.RbxL" (Some "out"%string) = "out"%string.
Proof.
  split; [vm_compute; reflexivity |].
  apply (proj1 (proj2 (output_directory_default "games/Place.RbxL"
                         ltac:(vm_compute; reflexivity)))).
  discriminate.
Defined.
